(** * Revenue leakage detector

    A shallow embedding of [revenue_leakage_detector.py].  The script
    keeps its data in a pandas [DataFrame] and leaves the arithmetic to
    pandas and numpy; the embedding carries the part of those libraries
    the script relies on.

    - A frame is an index length with an ordered list of named columns.
      [df[name]] raises [KeyError] on an absent column; [df[name] = s]
      overwrites the column in place or appends it at the end.
    - A column has a dtype, as the CSV reader infers it: [int64] (every
      cell an integer), [float64] (numbers, NaN for a missing cell),
      [bool] (every cell True or False) or [object] (text, NaN for a
      missing cell).  Unsigned, complex, date and nullable dtypes are not
      modelled.
    - Arithmetic follows the dtypes: two [int64] columns are combined in
      64-bit two's complement, wrapping silently; a [float64] operand
      makes the result binary64 (Rocq's primitive floats), integers and
      booleans being converted first; the product of two [bool] columns
      is their conjunction and their difference raises [TypeError].
    - The missing marker is NaN; [dropna] drops exactly the NaN cells.

    Reading the file, parsing a piece of text as a number, the order in
    which numpy accumulates a floating-point sum, and Python's own
    arithmetic on [object] columns (which the script never reaches) are
    the libraries' business: they are parameters of the model. *)

From Stdlib Require Import Floats Uint63 ZArith String Ascii DecimalString Bool Arith
  List Lia.
Import ListNotations.

Open Scope string_scope.
Open Scope list_scope.

(** ** Results and exceptions *)

Inductive exn : Type :=
| FileError                (* the reader could not produce a table *)
| KeyError (key : string)  (* df[key] on an absent column *)
| TypeError.               (* an operation the dtype does not support *)

Definition result (A : Type) : Type := (exn + A)%type.

Abbreviation ok := (@inr exn _).
Abbreviation raise := (@inl exn _).

Definition bind {A B : Type} (m : result A) (k : A -> result B) : result B :=
  match m with
  | inl e => inl e
  | inr a => k a
  end.

Notation "x <- m ;; k" := (bind m (fun x => k))
  (at level 61, m at next level, right associativity).

(** ** Numbers *)

(** A 64-bit signed integer is given by its value; [wrap64] brings the
    result of an operation back into range, as the machine does. *)
Definition wrap64 (z : Z) : Z := ((z + 2 ^ 63) mod 2 ^ 64 - 2 ^ 63)%Z.


(** The conversion of an [int64] to [float64], to the nearest. *)
Definition float_of_int64 (z : Z) : float :=
  let m := Z.abs z in
  let f := if (m =? 2 ^ 63)%Z
           then PrimFloat.mul (PrimFloat.of_uint63 (Uint63.of_Z (2 ^ 62))) 2%float
           else PrimFloat.of_uint63 (Uint63.of_Z m) in
  if (z <? 0)%Z then PrimFloat.opp f else f.

Definition float_of_bool (b : bool) : float :=
  if b then PrimFloat.one else PrimFloat.zero.

Definition float_of_nat (n : nat) : float :=
  PrimFloat.of_uint63 (Uint63.of_Z (Z.of_nat n)).

(** A numpy scalar: [np.int64] or [np.float64]. *)
Inductive number : Type :=
| I64 (z : Z)
| F64 (x : float).

(** ** Cells, columns and frames *)

(** What a cell holds. *)
Inductive cell : Type :=
| Int (z : Z)
| Num (x : float)
| Flag (b : bool)
| Str (s : string).

(** A column, by dtype.  A missing cell of an [object] column is [None]. *)
Inductive Series : Type :=
| IntCol (l : list Z)                  (* int64 *)
| FloatCol (l : list float)            (* float64 *)
| BoolCol (l : list bool)              (* bool *)
| ObjectCol (l : list (option string)).  (* object *)

Definition object_cell (o : option string) : cell :=
  match o with
  | Some s => Str s
  | None => Num PrimFloat.nan
  end.

Definition cells (s : Series) : list cell :=
  match s with
  | IntCol l => map Int l
  | FloatCol l => map Num l
  | BoolCol l => map Flag l
  | ObjectCol l => map object_cell l
  end.

Definition series_len (s : Series) : nat := length (cells s).

Definition is_object (s : Series) : bool :=
  match s with
  | ObjectCol _ => true
  | _ => false
  end.

Definition is_bool (s : Series) : bool :=
  match s with
  | BoolCol _ => true
  | _ => false
  end.

Record DataFrame : Type := mkFrame {
  nrows : nat;                          (* length of the index *)
  columns : list (string * Series)      (* in the order of the header *)
}.

(** [len(df)] *)
Definition len (df : DataFrame) : nat := nrows df.

(** Every column of a frame has one cell per index entry. *)
Definition wf_frame (df : DataFrame) : bool :=
  forallb (fun c => Nat.eqb (series_len (snd c)) (nrows df)) (columns df).

Fixpoint find_column (cols : list (string * Series)) (name : string)
  : option Series :=
  match cols with
  | [] => None
  | (n, s) :: rest => if String.eqb n name then Some s else find_column rest name
  end.

Fixpoint set_column (cols : list (string * Series)) (name : string) (s : Series)
  : list (string * Series) :=
  match cols with
  | [] => [(name, s)]
  | (n, c) :: rest =>
      if String.eqb n name then (n, s) :: rest
      else (n, c) :: set_column rest name s
  end.

(** [df[name]] *)
Definition getitem (df : DataFrame) (name : string) : result Series :=
  match find_column (columns df) name with
  | Some s => ok s
  | None => raise (KeyError name)
  end.

(** [df[name] = s] *)
Definition setitem (df : DataFrame) (name : string) (s : Series) : DataFrame :=
  mkFrame (nrows df) (set_column (columns df) name s).

Definition has_column (df : DataFrame) (name : string) : bool :=
  match find_column (columns df) name with
  | Some _ => true
  | None => false
  end.

(** The cell of column [name] at row [i], when there is one. *)
Definition cell_at (df : DataFrame) (name : string) (i : nat) : option cell :=
  match getitem df name with
  | inr s => nth_error (cells s) i
  | inl _ => None
  end.

(** ** Missing values *)

Definition isna (x : float) : bool := PrimFloat.is_nan x.

Definition cell_isna (c : cell) : bool :=
  match c with
  | Num x => isna x
  | _ => false
  end.

Definition dropna_floats (l : list float) : list float :=
  filter (fun x => negb (isna x)) l.

Definition is_text (o : option string) : bool :=
  match o with
  | Some _ => true
  | None => false
  end.

(** [Series.dropna()]: only [float64] and [object] columns can hold a
    missing cell. *)
Definition dropna (s : Series) : Series :=
  match s with
  | FloatCol l => FloatCol (dropna_floats l)
  | ObjectCol l => ObjectCol (filter is_text l)
  | IntCol _ | BoolCol _ => s
  end.

(** Number of rows of a column whose value is not missing. *)
Definition count_notna (s : Series) : nat :=
  length (filter (fun c => negb (cell_isna c)) (cells s)).

(** Does the column hold a piece of text? *)
Definition has_text (s : Series) : bool :=
  match s with
  | ObjectCol l => existsb is_text l
  | _ => false
  end.

(** ** Arithmetic on columns *)

Inductive binop : Type := Mul | Sub.

Definition int_op (op : binop) (a b : Z) : Z :=
  wrap64 (match op with
          | Mul => a * b
          | Sub => a - b
          end)%Z.

Definition float_op (op : binop) : float -> float -> float :=
  match op with
  | Mul => PrimFloat.mul
  | Sub => PrimFloat.sub
  end.

(** Row by row combination of two columns; both are columns of one frame
    and carry its index, so the rows pair up by position. *)
Fixpoint zip_with {A B C : Type} (f : A -> B -> C) (xs : list A) (ys : list B)
  : list C :=
  match xs, ys with
  | x :: xs', y :: ys' => f x y :: zip_with f xs' ys'
  | _, _ => []
  end.

(** [a * b] and [a - b] on numeric columns, with numpy's promotion of the
    operands; [None] when one of them is an [object] column. *)
Definition numeric_binop (op : binop) (a b : Series) : option (result Series) :=
  match a, b with
  | ObjectCol _, _ | _, ObjectCol _ => None
  | BoolCol x, BoolCol y =>
      Some (match op with
            | Mul => ok (BoolCol (zip_with andb x y))
            | Sub => raise TypeError
            end)
  | IntCol x, IntCol y => Some (ok (IntCol (zip_with (int_op op) x y)))
  | IntCol x, BoolCol y =>
      Some (ok (IntCol (zip_with (int_op op) x (map Z.b2z y))))
  | BoolCol x, IntCol y =>
      Some (ok (IntCol (zip_with (int_op op) (map Z.b2z x) y)))
  | FloatCol x, FloatCol y => Some (ok (FloatCol (zip_with (float_op op) x y)))
  | FloatCol x, IntCol y =>
      Some (ok (FloatCol (zip_with (float_op op) x (map float_of_int64 y))))
  | IntCol x, FloatCol y =>
      Some (ok (FloatCol (zip_with (float_op op) (map float_of_int64 x) y)))
  | FloatCol x, BoolCol y =>
      Some (ok (FloatCol (zip_with (float_op op) x (map float_of_bool y))))
  | BoolCol x, FloatCol y =>
      Some (ok (FloatCol (zip_with (float_op op) (map float_of_bool x) y)))
  end.

(** The same on two cells. *)
Definition cell_arith (op : binop) (a b : cell) : option cell :=
  match a, b with
  | Str _, _ | _, Str _ => None
  | Flag x, Flag y =>
      match op with
      | Mul => Some (Flag (x && y))
      | Sub => None
      end
  | Int x, Int y => Some (Int (int_op op x y))
  | Int x, Flag y => Some (Int (int_op op x (Z.b2z y)))
  | Flag x, Int y => Some (Int (int_op op (Z.b2z x) y))
  | Num x, Num y => Some (Num (float_op op x y))
  | Num x, Int y => Some (Num (float_op op x (float_of_int64 y)))
  | Int x, Num y => Some (Num (float_op op (float_of_int64 x) y))
  | Num x, Flag y => Some (Num (float_op op x (float_of_bool y)))
  | Flag x, Num y => Some (Num (float_op op (float_of_bool x) y))
  end.

(** ** Coercion to numbers *)

(** What the text of a cell parses to. *)
Inductive parsed : Type :=
| PInt (z : Z)
| PFloat (x : float).

Definition parsed_to_float (p : parsed) : float :=
  match p with
  | PInt z => float_of_int64 z
  | PFloat x => x
  end.

Fixpoint all_ints (ps : list parsed) : option (list Z) :=
  match ps with
  | [] => Some []
  | PInt z :: rest => option_map (cons z) (all_ints rest)
  | PFloat _ :: _ => None
  end.

(** ** The loader *)

Definition required_columns : list string :=
  ["MonthlyCharges"; "tenure"; "TotalCharges"].

Section Loader.

(** The library's text-to-number parser: an [int64], a [float64], or
    nothing. *)
Variable str_to_num : string -> option parsed.
(** Python's arithmetic on an [object] column, cell by cell. *)
Variable object_binop : binop -> Series -> Series -> result Series.
(** [pd.read_csv]. *)
Variable read_csv : string -> result DataFrame.

(** [errors='coerce'] on one cell of an [object] column *)
Definition coerce (o : option string) : parsed :=
  match o with
  | None => PFloat PrimFloat.nan
  | Some s =>
      match str_to_num s with
      | Some p => p
      | None => PFloat PrimFloat.nan
      end
  end.

(** [pd.to_numeric(s, errors='coerce')]: a numeric column is returned as
    it is; an [object] column becomes [int64] when every cell parses as
    an integer and [float64] otherwise. *)
Definition to_numeric (s : Series) : Series :=
  match s with
  | ObjectCol l =>
      let ps := map coerce l in
      match all_ints ps with
      | Some zs => IntCol zs
      | None => FloatCol (map parsed_to_float ps)
      end
  | IntCol _ | FloatCol _ | BoolCol _ => s
  end.

Definition series_binop (op : binop) (a b : Series) : result Series :=
  match numeric_binop op a b with
  | Some r => r
  | None => object_binop op a b
  end.

Definition series_mul : Series -> Series -> result Series := series_binop Mul.
Definition series_sub : Series -> Series -> result Series := series_binop Sub.

(** Lines 46-48: "Ensure numeric columns are numeric". *)
Definition coerce_columns (df : DataFrame) : result DataFrame :=
  m <- getitem df "MonthlyCharges" ;;
  let df := setitem df "MonthlyCharges" (to_numeric m) in
  t <- getitem df "tenure" ;;
  let df := setitem df "tenure" (to_numeric t) in
  c <- getitem df "TotalCharges" ;;
  let df := setitem df "TotalCharges" (to_numeric c) in
  ok df.

(** Lines 50-51: "Compute expected revenue and leakage". *)
Definition derive_columns (df : DataFrame) : result DataFrame :=
  t <- getitem df "tenure" ;;
  m <- getitem df "MonthlyCharges" ;;
  e <- series_mul t m ;;
  let df := setitem df "ExpectedRevenue" e in
  e <- getitem df "ExpectedRevenue" ;;
  c <- getitem df "TotalCharges" ;;
  l <- series_sub e c ;;
  let df := setitem df "RevenueLeakage" l in
  ok df.

Definition load_data (csv_path : string) : result DataFrame :=
  df <- read_csv csv_path ;;
  df <- coerce_columns df ;;
  derive_columns df.

End Loader.

(** ** The aggregator *)

Record Stats : Type := mkStats {
  total_records : nat;
  total_leakage : number;
  average_leakage : float;
  positive_leakage_count : nat
}.

(** [.sum()] of a column of booleans *)
Definition bool_sum (l : list bool) : nat :=
  fold_right (fun b n => Nat.b2n b + n) 0 l.

(** [.sum()] of an [int64] column: the additions wrap. *)
Definition int_sum (l : list Z) : Z := wrap64 (fold_left Z.add l 0%Z).

Section Aggregator.

(** numpy's sum of a non-empty [float64] array, in the order numpy adds. *)
Variable accumulate : list float -> float.
(** numpy's sum of a non-empty [int64] array into a [float64]. *)
Variable accumulate_int : list Z -> float.

(** [Series.sum()] of a [float64] column: 0.0 when it is empty. *)
Definition np_sum (l : list float) : float :=
  match l with
  | [] => PrimFloat.zero
  | _ :: _ => accumulate l
  end.

(** [Series.mean()]: the sum over the count, NaN when there is nothing
    to average. *)
Definition mean (l : list float) : float :=
  match length l with
  | O => PrimFloat.nan
  | S _ => PrimFloat.div (np_sum l) (float_of_nat (length l))
  end.

Definition int_mean (l : list Z) : float :=
  match length l with
  | O => PrimFloat.nan
  | S _ => PrimFloat.div (accumulate_int l) (float_of_nat (length l))
  end.

Definition bool_mean (l : list bool) : float :=
  match length l with
  | O => PrimFloat.nan
  | S _ => PrimFloat.div (float_of_nat (bool_sum l)) (float_of_nat (length l))
  end.

(** The four statistics of a table of [rows] rows whose RevenueLeakage
    column is [col].  On text the reductions raise [TypeError]. *)
Definition column_statistics (rows : nat) (col : Series) : result Stats :=
  match dropna col with
  | FloatCol l =>
      ok {| total_records := rows;
            total_leakage := F64 (np_sum l);
            average_leakage := mean l;
            positive_leakage_count :=
              bool_sum (map (fun x => PrimFloat.ltb PrimFloat.zero x) l) |}
  | IntCol l =>
      ok {| total_records := rows;
            total_leakage := I64 (int_sum l);
            average_leakage := int_mean l;
            positive_leakage_count :=
              bool_sum (map (fun z => Z.ltb 0 z) l) |}
  | BoolCol l =>
      ok {| total_records := rows;
            total_leakage := I64 (Z.of_nat (bool_sum l));
            average_leakage := bool_mean l;
            positive_leakage_count := bool_sum l |}
  | ObjectCol [] =>
      ok {| total_records := rows;
            total_leakage := I64 0;
            average_leakage := PrimFloat.nan;
            positive_leakage_count := 0 |}
  | ObjectCol (_ :: _) => raise TypeError
  end.

(** Lines 65-72. *)
Definition compute_statistics (df : DataFrame) : result Stats :=
  col <- getitem df "RevenueLeakage" ;;
  column_statistics (len df) col.

End Aggregator.

(** ** The reporter and the entry point

    [plot_leakage_histogram] and [main] act on the outside world: they
    call matplotlib, create a directory and print.  A program is run
    against the calls made so far and returns the calls it makes, in
    order, with its outcome.  Whether a call raises is the environment's
    decision: it is a parameter, and it may depend on everything that was
    called before. *)

Inductive call : Type :=
| PltFigure
| PltHist (values : Series) (bins : nat)
| PltTitle (text : string)
| PltXlabel (text : string)
| PltYlabel (text : string)
| PltTightLayout
| OsMakedirs (dir : string)      (* exist_ok=True *)
| PltSavefig (path : string)
| PltClose
| Print (line : string).

Inductive failure : Type :=
| Raised (e : exn)          (* raised by the script's own table code *)
| LibraryError (c : call).  (* raised inside the call [c] *)

Definition prog (A : Type) : Type :=
  list call -> list call * (failure + A)%type.

Definition lift {A : Type} (r : result A) : prog A :=
  fun _ =>
    ([], match r with
         | inl e => inl (Raised e)
         | inr a => inr a
         end).

Definition pbind {A B : Type} (m : prog A) (k : A -> prog B) : prog B :=
  fun h =>
    match m h with
    | (t, inl e) => (t, inl e)
    | (t, inr a) => let (t', r) := k a (h ++ t) in (t ++ t', r)
    end.

Notation "x <~ m ;; k" := (pbind m (fun x => k))
  (at level 61, m at next level, right associativity).
Notation "m ;;; k" := (pbind m (fun _ => k))
  (at level 61, right associativity).

(** [str(n)] for a count *)
Definition str_of_nat (n : nat) : string :=
  NilZero.string_of_uint (Nat.to_uint n).

Section Reporter.

(** Does call [c] raise, after the calls [h]? *)
Variable fails : list call -> call -> bool.
(** [os.path.dirname], [os.path.abspath], [os.path.join] *)
Variable dirname : string -> string.
Variable abspath : string -> string.
Variable path_join : list string -> string.
(** [__file__] *)
Variable script_file : string.
(** The format [:.2f] *)
Variable format_2f : number -> string.
Variable str_to_num : string -> option parsed.
Variable object_binop : binop -> Series -> Series -> result Series.
Variable read_csv : string -> result DataFrame.
Variable accumulate : list float -> float.
Variable accumulate_int : list Z -> float.

Definition perform (c : call) : prog unit :=
  fun h => ([c], if fails h c then inl (LibraryError c) else inr tt).

Definition plot_leakage_histogram (df : DataFrame) (output_path : string)
  : prog unit :=
  col <~ lift (getitem df "RevenueLeakage") ;;
  let leakage := dropna col in
  perform PltFigure ;;;
  perform (PltHist leakage 15) ;;;
  perform (PltTitle "Revenue Leakage Distribution") ;;;
  perform (PltXlabel "Revenue Leakage (USD)") ;;;
  perform (PltYlabel "Number of Customers") ;;;
  perform PltTightLayout ;;;
  perform (OsMakedirs (dirname output_path)) ;;;
  perform (PltSavefig output_path) ;;;
  perform PltClose.

Definition main : prog unit :=
  let current_dir := dirname (abspath script_file) in
  let data_path := path_join [current_dir; "data"; "synthetic_revenue.csv"] in
  let output_path :=
    path_join [current_dir; "output"; "revenue_leakage_hist.png"] in
  df <~ lift (load_data str_to_num object_binop read_csv data_path) ;;
  stats <~ lift (compute_statistics accumulate accumulate_int df) ;;
  perform (Print "Revenue Leakage Summary:") ;;;
  perform (Print ("Total customers: " ++ str_of_nat (total_records stats))) ;;;
  perform (Print ("Total leakage: " ++ format_2f (total_leakage stats))) ;;;
  perform (Print ("Average leakage per customer: "
                  ++ format_2f (F64 (average_leakage stats)))) ;;;
  perform (Print ("Customers with positive leakage: "
                  ++ str_of_nat (positive_leakage_count stats))) ;;;
  plot_leakage_histogram df output_path ;;;
  perform (Print ("Histogram saved to " ++ output_path)).

(** A list of calls made one after the other, up to the first that
    raises. *)
Fixpoint perform_all (cs : list call) : prog unit :=
  fun h =>
    match cs with
    | [] => ([], inr tt)
    | c :: rest =>
        if fails h c then ([c], inl (LibraryError c))
        else let (t, r) := perform_all rest (h ++ [c]) in (c :: t, r)
    end.

End Reporter.

(** The calls of the reporter and the lines of the summary, in order. *)
Definition plot_calls (leakage : Series) (dir output_path : string)
  : list call :=
  [PltFigure;
   PltHist leakage 15;
   PltTitle "Revenue Leakage Distribution";
   PltXlabel "Revenue Leakage (USD)";
   PltYlabel "Number of Customers";
   PltTightLayout;
   OsMakedirs dir;
   PltSavefig output_path;
   PltClose].

Definition summary_lines (format_2f : number -> string) (stats : Stats)
  : list call :=
  [Print "Revenue Leakage Summary:";
   Print ("Total customers: " ++ str_of_nat (total_records stats));
   Print ("Total leakage: " ++ format_2f (total_leakage stats));
   Print ("Average leakage per customer: "
          ++ format_2f (F64 (average_leakage stats)));
   Print ("Customers with positive leakage: "
          ++ str_of_nat (positive_leakage_count stats))].

(** The two paths [main] builds from the script's own location. *)
Definition data_path (dirname abspath : string -> string)
  (path_join : list string -> string) (script_file : string) : string :=
  path_join [dirname (abspath script_file); "data"; "synthetic_revenue.csv"].

Definition output_path (dirname abspath : string -> string)
  (path_join : list string -> string) (script_file : string) : string :=
  path_join [dirname (abspath script_file); "output";
             "revenue_leakage_hist.png"].

(** Everything [main] calls on a table it could load, in order. *)
Definition report_calls (format_2f : number -> string) (stats : Stats)
  (leakage : Series) (dir out : string) : list call :=
  summary_lines format_2f stats
  ++ plot_calls leakage dir out
  ++ [Print ("Histogram saved to " ++ out)].

(** ** Sample inputs *)

(** A parser that reads unsigned decimal integers and nothing else. *)
Fixpoint digits_value (s : string) (acc : Z) : option Z :=
  match s with
  | EmptyString => Some acc
  | String a rest =>
      let n := nat_of_ascii a in
      if Nat.leb 48 n && Nat.leb n 57
      then digits_value rest (10 * acc + Z.of_nat (n - 48))
      else None
  end.

Definition plain_integer (s : string) : option parsed :=
  match s with
  | EmptyString => None
  | _ => option_map PInt (digits_value s 0)
  end.

(** A reader that knows one file. *)
Definition one_file (name : string) (df : DataFrame) (path : string)
  : result DataFrame :=
  if String.eqb path name then ok df else raise FileError.

(** An arithmetic on [object] columns that supports nothing; the loader
    does not reach it. *)
Definition no_object_arith (op : binop) (a b : Series) : result Series :=
  raise TypeError.

(** Sums added from left to right, which is numpy's order on a short
    array. *)
Definition add_in_order (l : list float) : float :=
  fold_left PrimFloat.add l PrimFloat.zero.

Definition add_ints_in_order (l : list Z) : float :=
  add_in_order (map float_of_int64 l).

(** One customer: tenure 10, monthly charge 50, total charge 450. *)
Definition scenario_A : DataFrame :=
  mkFrame 1 [("tenure", IntCol [10%Z]);
             ("MonthlyCharges", IntCol [50%Z]);
             ("TotalCharges", IntCol [450%Z])].

(** One customer: tenure 5, monthly charge 20, total charge "NA". *)
Definition scenario_B : DataFrame :=
  mkFrame 1 [("tenure", IntCol [5%Z]);
             ("MonthlyCharges", IntCol [20%Z]);
             ("TotalCharges", ObjectCol [Some "NA"])].

(** Three customers; the last one's total charge does not parse. *)
Definition three_rows : DataFrame :=
  mkFrame 3 [("customerID", ObjectCol [Some "A-1"; Some "B-2"; Some "C-3"]);
             ("tenure", IntCol [3%Z; 1%Z; 5%Z]);
             ("MonthlyCharges", FloatCol [10%float; 10%float; 20%float]);
             ("TotalCharges", ObjectCol [Some "0"; Some "20"; Some " "])].

(** The table of a successful load (the empty table otherwise). *)
Definition frame_of (r : result DataFrame) : DataFrame :=
  match r with
  | inr df => df
  | inl _ => mkFrame 0 []
  end.

(** [three_rows] after the loader: leakage 30, -10 and missing. *)
Definition three_loaded : DataFrame :=
  frame_of (load_data plain_integer no_object_arith
              (one_file "c.csv" three_rows) "c.csv").

(** A table without the TotalCharges column. *)
Definition no_total : DataFrame :=
  mkFrame 1 [("tenure", IntCol [5%Z]);
             ("MonthlyCharges", IntCol [20%Z])].

(** A table that already has a column named ExpectedRevenue. *)
Definition with_expected : DataFrame :=
  mkFrame 1 [("tenure", IntCol [10%Z]);
             ("MonthlyCharges", IntCol [50%Z]);
             ("TotalCharges", IntCol [450%Z]);
             ("ExpectedRevenue", ObjectCol [Some "budgeted"])].

(** A table whose three columns are read as booleans. *)
Definition all_flags : DataFrame :=
  mkFrame 1 [("tenure", BoolCol [true]);
             ("MonthlyCharges", BoolCol [true]);
             ("TotalCharges", BoolCol [false])].



(** An environment in which nothing raises, one in which no directory can
    be created, and simple path functions. *)
Definition never_fails (h : list call) (c : call) : bool := false.

Definition full_disk (h : list call) (c : call) : bool :=
  match c with
  | OsMakedirs _ => true
  | _ => false
  end.

Definition slash_join (parts : list string) : string := String.concat "/" parts.

(** A script installed under [app], with the sample table beside it. *)
Definition app_dir (p : string) : string := "app".
Definition same_path (p : string) : string := p.
Definition two_digits (x : number) : string := "#.##".
Definition app_disk : string -> result DataFrame :=
  one_file "app/data/synthetic_revenue.csv" three_rows.

(** ** What the loader returns, in closed form

    [M], [T] and [C] are the columns MonthlyCharges, tenure and
    TotalCharges of the table as read, [E] and [L] the two derived
    columns. *)

Section Enriched.

Variable str_to_num : string -> option parsed.

Definition coerced (df0 : DataFrame) (M T C : Series) : DataFrame :=
  setitem
    (setitem
       (setitem df0 "MonthlyCharges" (to_numeric str_to_num M))
       "tenure" (to_numeric str_to_num T))
    "TotalCharges" (to_numeric str_to_num C).

Definition enriched (df0 : DataFrame) (M T C E L : Series) : DataFrame :=
  setitem (setitem (coerced df0 M T C) "ExpectedRevenue" E)
          "RevenueLeakage" L.

End Enriched.

(** Are the three required columns all of dtype [bool]? *)
Definition all_bool (df : DataFrame) : bool :=
  match getitem df "tenure", getitem df "MonthlyCharges",
        getitem df "TotalCharges" with
  | inr (BoolCol _), inr (BoolCol _), inr (BoolCol _) => true
  | _, _, _ => false
  end.

(** Is the value of a cell above 0? *)
Definition cell_positive (c : cell) : bool :=
  match c with
  | Int z => Z.ltb 0 z
  | Num x => PrimFloat.ltb PrimFloat.zero x
  | Flag b => b
  | Str _ => false
  end.

(** The number of positive values among the rows that are not missing. *)
Definition positive_cells (col : Series) : nat :=
  length (filter (fun c => negb (cell_isna c) && cell_positive c) (cells col)).


(** ** Statements that are tested against the code below *)



(** "If any one of tenure, MonthlyCharges, TotalCharges fails numeric
    coercion on a row, both derived fields of that row are missing." *)
Definition any_failure_blanks_both
  (str_to_num : string -> option parsed)
  (object_binop : binop -> Series -> Series -> result Series)
  (read_csv : string -> result DataFrame) (path : string) : Prop :=
  forall df i t m c,
    load_data str_to_num object_binop read_csv path = ok df ->
    cell_at df "tenure" i = Some t ->
    cell_at df "MonthlyCharges" i = Some m ->
    cell_at df "TotalCharges" i = Some c ->
    cell_isna t = true \/ cell_isna m = true \/ cell_isna c = true ->
    exists e l,
      cell_at df "ExpectedRevenue" i = Some (Num e) /\ isna e = true /\
      cell_at df "RevenueLeakage" i = Some (Num l) /\ isna l = true.


(** "On every readable table that has the three required columns the
    loader succeeds." *)
Definition load_always_succeeds
  (str_to_num : string -> option parsed)
  (object_binop : binop -> Series -> Series -> result Series)
  (read_csv : string -> result DataFrame) (path : string) : Prop :=
  forall df0,
    read_csv path = ok df0 ->
    has_column df0 "MonthlyCharges" = true ->
    has_column df0 "tenure" = true ->
    has_column df0 "TotalCharges" = true ->
    exists df, load_data str_to_num object_binop read_csv path = ok df.

(** "The loader raises if and only if the table cannot be read or a
    required column is absent." *)
Definition only_two_failure_modes
  (str_to_num : string -> option parsed)
  (object_binop : binop -> Series -> Series -> result Series)
  (read_csv : string -> result DataFrame) (path : string) : Prop :=
  (exists e, load_data str_to_num object_binop read_csv path = raise e) <->
  (exists e, read_csv path = raise e) \/
  (exists df0 name,
     read_csv path = ok df0 /\
     In name required_columns /\ has_column df0 name = false).

(** "The loader keeps the row count, leaves every column other than
    tenure, MonthlyCharges and TotalCharges unchanged, and appends exactly
    the two columns ExpectedRevenue and RevenueLeakage." *)
Definition loader_only_appends
  (str_to_num : string -> option parsed)
  (object_binop : binop -> Series -> Series -> result Series)
  (read_csv : string -> result DataFrame) (path : string) : Prop :=
  forall df0 df,
    read_csv path = ok df0 ->
    load_data str_to_num object_binop read_csv path = ok df ->
    len df = len df0 /\
    (forall name s,
       ~ In name required_columns ->
       getitem df0 name = ok s -> getitem df name = ok s) /\
    map fst (columns df) =
      map fst (columns df0) ++ ["ExpectedRevenue"; "RevenueLeakage"].

(** * Properties *)

(** ** The missing marker *)

Lemma isna_nan : isna PrimFloat.nan = true.
Proof. reflexivity. Qed.

Lemma isna_zero : isna PrimFloat.zero = false.
Proof. reflexivity. Qed.

Lemma isna_spec (x : float) : isna x = true <-> x = PrimFloat.nan.
Proof.
  split.
  - intros H. apply Prim2SF_inj.
    unfold Prim2SF at 1. unfold isna in H. rewrite H. reflexivity.
  - intros ->. reflexivity.
Qed.

Lemma mul_nan_l (y : float) : PrimFloat.mul PrimFloat.nan y = PrimFloat.nan.
Proof. apply Prim2SF_inj. rewrite FloatAxioms.mul_spec. reflexivity. Qed.

Lemma mul_nan_r (x : float) : PrimFloat.mul x PrimFloat.nan = PrimFloat.nan.
Proof.
  apply Prim2SF_inj. rewrite FloatAxioms.mul_spec.
  change (Prim2SF PrimFloat.nan) with S754_nan.
  destruct (Prim2SF x); reflexivity.
Qed.

Lemma sub_nan_l (y : float) : PrimFloat.sub PrimFloat.nan y = PrimFloat.nan.
Proof. apply Prim2SF_inj. rewrite FloatAxioms.sub_spec. reflexivity. Qed.

Lemma sub_nan_r (x : float) : PrimFloat.sub x PrimFloat.nan = PrimFloat.nan.
Proof.
  apply Prim2SF_inj. rewrite FloatAxioms.sub_spec.
  change (Prim2SF PrimFloat.nan) with S754_nan.
  destruct (Prim2SF x); reflexivity.
Qed.

(** ** Columns of a frame *)

Lemma find_set_same cols n s : find_column (set_column cols n s) n = Some s.
Proof.
  induction cols as [|[k c] rest IH]; simpl.
  - now rewrite String.eqb_refl.
  - destruct (String.eqb k n) eqn:E; simpl; now rewrite E.
Qed.

Lemma find_set_other cols n m s :
  String.eqb n m = false ->
  find_column (set_column cols n s) m = find_column cols m.
Proof.
  intros Hnm. induction cols as [|[k c] rest IH]; simpl.
  - now rewrite Hnm.
  - destruct (String.eqb k n) eqn:E; simpl.
    + apply String.eqb_eq in E. subst k. now rewrite Hnm.
    + now rewrite IH.
Qed.

Lemma names_set_column cols n s :
  map fst (set_column cols n s) =
  match find_column cols n with
  | Some _ => map fst cols
  | None => map fst cols ++ [n]
  end.
Proof.
  induction cols as [|[k c] rest IH]; simpl; [reflexivity|].
  destruct (String.eqb k n); simpl; [reflexivity|].
  rewrite IH. now destruct (find_column rest n).
Qed.

Lemma getitem_setitem_same df n s : getitem (setitem df n s) n = ok s.
Proof. unfold getitem, setitem. simpl. now rewrite find_set_same. Qed.

Lemma getitem_setitem_other df n m s :
  String.eqb n m = false -> getitem (setitem df n s) m = getitem df m.
Proof. intros H. unfold getitem, setitem. simpl. now rewrite find_set_other. Qed.

Lemma has_column_getitem df n :
  has_column df n = true <-> exists s, getitem df n = ok s.
Proof.
  unfold has_column, getitem. destruct (find_column (columns df) n).
  - split; eauto.
  - split; [discriminate|]. intros [s H]. discriminate.
Qed.

Create Rewrite HintDb frame.
#[local] Hint Rewrite getitem_setitem_same : frame.
#[local] Hint Rewrite getitem_setitem_other using reflexivity : frame.

Lemma setitem_same_value df n s : getitem df n = ok s -> setitem df n s = df.
Proof.
  unfold getitem, setitem. destruct df as [k cols]. simpl.
  intros H. f_equal.
  induction cols as [|[m c] rest IH]; simpl in *; [discriminate|].
  destruct (String.eqb m n).
  - now injection H as ->.
  - now rewrite IH.
Qed.

Lemma getitem_raise df name e :
  getitem df name = raise e -> e = KeyError name /\ has_column df name = false.
Proof.
  unfold getitem, has_column.
  destruct (find_column (columns df) name); [discriminate|].
  intros [= <-]. auto.
Qed.

Lemma absent_column_not_got df name s :
  has_column df name = false -> getitem df name = ok s -> False.
Proof.
  unfold has_column, getitem.
  destruct (find_column (columns df) name); discriminate.
Qed.

Lemma getitem_has_column df n s : getitem df n = ok s -> has_column df n = true.
Proof. intros H. apply has_column_getitem. eauto. Qed.

Lemma has_column_setitem_other df n m s :
  String.eqb n m = false -> has_column (setitem df n s) m = has_column df m.
Proof. intros H. unfold has_column, setitem. simpl. now rewrite find_set_other. Qed.

Lemma names_setitem df n s :
  map fst (columns (setitem df n s)) =
  if has_column df n then map fst (columns df)
  else map fst (columns df) ++ [n].
Proof.
  unfold setitem, has_column. simpl. rewrite names_set_column.
  now destruct (find_column (columns df) n).
Qed.

Lemma wf_column_length df n s :
  wf_frame df = true -> getitem df n = ok s -> series_len s = nrows df.
Proof.
  unfold wf_frame, getitem. generalize (nrows df) as k. intros k.
  induction (columns df) as [|[m c] rest IH]; simpl; [discriminate|].
  intros Hwf. apply andb_true_iff in Hwf as [Hc Hrest].
  destruct (String.eqb m n).
  - intros [= <-]. now apply Nat.eqb_eq.
  - now apply IH.
Qed.

Lemma wf_setitem df n s :
  wf_frame df = true -> series_len s = nrows df ->
  wf_frame (setitem df n s) = true.
Proof.
  unfold wf_frame, setitem. simpl. generalize (nrows df) as k. intros k Hwf Hs.
  induction (columns df) as [|[m c] rest IH]; simpl.
  - apply Nat.eqb_eq in Hs. now rewrite Hs.
  - simpl in Hwf. apply andb_true_iff in Hwf as [Hc Hrest].
    destruct (String.eqb m n); simpl.
    + apply Nat.eqb_eq in Hs. now rewrite Hs, Hrest.
    + now rewrite Hc, IH.
Qed.

(** ** Integers in 64 bits *)


(** ** Arithmetic on columns, row by row *)

Lemma nth_error_zip_with {A B C : Type} (f : A -> B -> C) xs ys i x y :
  nth_error xs i = Some x -> nth_error ys i = Some y ->
  nth_error (zip_with f xs ys) i = Some (f x y).
Proof.
  revert ys i. induction xs as [|a xs IH]; intros [|b ys] [|i]; simpl;
    try discriminate.
  - now intros [= ->] [= ->].
  - apply IH.
Qed.

Lemma length_zip_with {A B C : Type} (f : A -> B -> C) xs ys :
  length (zip_with f xs ys) = Nat.min (length xs) (length ys).
Proof.
  revert ys. induction xs as [|a xs IH]; intros [|b ys]; simpl; auto.
Qed.

Lemma nth_error_map_inv {A B : Type} (f : A -> B) l i c :
  nth_error (map f l) i = Some c ->
  exists a, nth_error l i = Some a /\ c = f a.
Proof.
  rewrite nth_error_map. destruct (nth_error l i) as [a|]; simpl;
    [|discriminate].
  intros [= <-]. eauto.
Qed.

Lemma numeric_binop_defined op a b :
  is_object a = false -> is_object b = false ->
  exists r, numeric_binop op a b = Some r.
Proof. destruct a, b; simpl; try discriminate; eauto. Qed.

(** The product of two numeric columns never raises; the difference
    raises exactly on two [bool] columns. *)
Lemma numeric_mul_ok a b :
  is_object a = false -> is_object b = false ->
  exists r, numeric_binop Mul a b = Some (ok r) /\
            is_object r = false /\ is_bool r = is_bool a && is_bool b.
Proof. destruct a, b; simpl; try discriminate; eauto. Qed.

Lemma numeric_sub_cases a b :
  is_object a = false -> is_object b = false ->
  (is_bool a && is_bool b = true /\
   numeric_binop Sub a b = Some (raise TypeError)) \/
  (is_bool a && is_bool b = false /\
   exists r, numeric_binop Sub a b = Some (ok r) /\
             is_object r = false /\ is_bool r = false).
Proof.
  destruct a, b; simpl; try discriminate; intros _ _;
    solve [left; auto | right; split; [reflexivity|eauto]].
Qed.

Lemma numeric_binop_length op a b r :
  numeric_binop op a b = Some (ok r) ->
  series_len r = Nat.min (series_len a) (series_len b).
Proof.
  unfold series_len.
  destruct a, b, op; simpl; try discriminate; intros [= <-]; simpl;
    now rewrite !length_map, length_zip_with, ?length_map.
Qed.

Ltac open_cells :=
  repeat match goal with
  | H : nth_error (map _ _) _ = Some _ |- _ =>
      apply nth_error_map_inv in H; destruct H as (? & H & ->)
  end.

Lemma numeric_binop_cells op a b r i x y :
  numeric_binop op a b = Some (ok r) ->
  nth_error (cells a) i = Some x ->
  nth_error (cells b) i = Some y ->
  exists v, nth_error (cells r) i = Some v /\ cell_arith op x y = Some v.
Proof.
  destruct a, b, op; simpl; try discriminate; intros [= <-] Hx Hy;
    open_cells; simpl; eexists; (split; [|reflexivity]);
    apply map_nth_error; apply nth_error_zip_with;
    try assumption; now apply map_nth_error.
Qed.

Lemma cell_arith_nan_l op y v :
  cell_arith op (Num PrimFloat.nan) y = Some v -> v = Num PrimFloat.nan.
Proof.
  destruct y, op; simpl; try discriminate; intros [= <-];
    now rewrite ?mul_nan_l, ?sub_nan_l.
Qed.

Lemma cell_arith_nan_r op x v :
  cell_arith op x (Num PrimFloat.nan) = Some v -> v = Num PrimFloat.nan.
Proof.
  destruct x, op; simpl; try discriminate; intros [= <-];
    now rewrite ?mul_nan_r, ?sub_nan_r.
Qed.

Lemma cell_isna_nan c : cell_isna c = true -> c = Num PrimFloat.nan.
Proof.
  destruct c; simpl; try discriminate. intros H.
  apply isna_spec in H. now subst.
Qed.

(** ** Coercion *)

Section CoercionFacts.

Variable str_to_num : string -> option parsed.

Lemma to_numeric_not_object s : is_object (to_numeric str_to_num s) = false.
Proof.
  destruct s; simpl; try reflexivity.
  now destruct (all_ints (map (coerce str_to_num) l)).
Qed.

Lemma to_numeric_is_bool s :
  is_bool (to_numeric str_to_num s) = is_bool s.
Proof.
  destruct s; simpl; try reflexivity.
  now destruct (all_ints (map (coerce str_to_num) l)).
Qed.

Lemma to_numeric_numeric s :
  is_object s = false -> to_numeric str_to_num s = s.
Proof. destruct s; simpl; try reflexivity. discriminate. Qed.

Lemma all_ints_length ps zs : all_ints ps = Some zs -> length zs = length ps.
Proof.
  revert zs. induction ps as [|[z|x] ps IH]; simpl; intros zs.
  - now intros [= <-].
  - destruct (all_ints ps) as [zs'|]; simpl; [|discriminate].
    intros [= <-]. simpl. now rewrite (IH zs' eq_refl).
  - discriminate.
Qed.

Lemma all_ints_float ps i x :
  nth_error ps i = Some (PFloat x) -> all_ints ps = None.
Proof.
  revert i. induction ps as [|[z|y] ps IH]; intros [|i]; simpl;
    try discriminate; try reflexivity.
  intros H. now rewrite (IH _ H).
Qed.

Lemma to_numeric_length s :
  series_len (to_numeric str_to_num s) = series_len s.
Proof.
  unfold series_len. destruct s; simpl; try reflexivity.
  destruct (all_ints (map (coerce str_to_num) l)) as [zs|] eqn:E; simpl.
  - rewrite !length_map. rewrite (all_ints_length _ _ E). now rewrite length_map.
  - now rewrite !length_map.
Qed.

(** A piece of text that does not parse becomes NaN, and the column
    [float64]. *)
Lemma to_numeric_bad_text col i s :
  nth_error (cells col) i = Some (Str s) ->
  str_to_num s = None ->
  nth_error (cells (to_numeric str_to_num col)) i = Some (Num PrimFloat.nan).
Proof.
  intros Hc Hs. destruct col as [l|l|l|l]; simpl in Hc.
  - apply nth_error_map_inv in Hc as (? & _ & H). discriminate.
  - apply nth_error_map_inv in Hc as (? & _ & H). discriminate.
  - apply nth_error_map_inv in Hc as (? & _ & H). discriminate.
  - apply nth_error_map_inv in Hc as (o & Ho & H).
    destruct o as [t|]; simpl in H; [|discriminate]. injection H as <-.
    assert (Hp : nth_error (map (coerce str_to_num) l) i
                 = Some (PFloat PrimFloat.nan)).
    { rewrite (map_nth_error _ _ _ Ho). simpl. now rewrite Hs. }
    simpl. rewrite (all_ints_float _ _ _ Hp). simpl.
    apply map_nth_error.
    now rewrite (map_nth_error _ _ _ Hp).
Qed.

End CoercionFacts.

(** ** The loader against its closed form *)

Section LoaderFacts.

Variable str_to_num : string -> option parsed.
Variable object_binop : binop -> Series -> Series -> result Series.
Variable read_csv : string -> result DataFrame.

Lemma series_binop_numeric op a b :
  is_object a = false -> is_object b = false ->
  exists r, numeric_binop op a b = Some r /\
            series_binop object_binop op a b = r.
Proof.
  intros Ha Hb. destruct (numeric_binop_defined op a b Ha Hb) as [r Hr].
  exists r. split; [exact Hr|]. unfold series_binop. now rewrite Hr.
Qed.

Lemma coerce_columns_spec df0 :
  coerce_columns str_to_num df0 =
  (M <- getitem df0 "MonthlyCharges" ;;
   T <- getitem df0 "tenure" ;;
   C <- getitem df0 "TotalCharges" ;;
   ok (coerced str_to_num df0 M T C)).
Proof.
  unfold coerce_columns.
  destruct (getitem df0 "MonthlyCharges") as [e|M]; simpl; [reflexivity|].
  autorewrite with frame.
  destruct (getitem df0 "tenure") as [e|T]; simpl; [reflexivity|].
  autorewrite with frame.
  destruct (getitem df0 "TotalCharges") as [e|C]; simpl; reflexivity.
Qed.

Lemma derive_columns_coerced df0 M T C :
  derive_columns object_binop (coerced str_to_num df0 M T C) =
  (E <- series_mul object_binop (to_numeric str_to_num T)
                                (to_numeric str_to_num M) ;;
   L <- series_sub object_binop E (to_numeric str_to_num C) ;;
   ok (enriched str_to_num df0 M T C E L)).
Proof.
  unfold derive_columns, enriched, coerced.
  autorewrite with frame. simpl.
  destruct (series_mul object_binop (to_numeric str_to_num T)
              (to_numeric str_to_num M)) as [e|E]; simpl; [reflexivity|].
  autorewrite with frame. simpl. reflexivity.
Qed.

(** What the two derived columns are, and when the second one exists. *)
Lemma derived_columns_cases M T C :
  exists E,
    numeric_binop Mul (to_numeric str_to_num T) (to_numeric str_to_num M)
      = Some (ok E) /\
    series_mul object_binop (to_numeric str_to_num T)
               (to_numeric str_to_num M) = ok E /\
    is_object E = false /\
    ((is_bool T && is_bool M && is_bool C = true /\
      series_sub object_binop E (to_numeric str_to_num C) = raise TypeError)
     \/
     (is_bool T && is_bool M && is_bool C = false /\
      exists L,
        numeric_binop Sub E (to_numeric str_to_num C) = Some (ok L) /\
        series_sub object_binop E (to_numeric str_to_num C) = ok L /\
        is_object L = false /\ is_bool L = false)).
Proof.
  destruct (numeric_mul_ok _ _ (to_numeric_not_object str_to_num T)
              (to_numeric_not_object str_to_num M))
    as (E & HE & HEo & HEb).
  rewrite !to_numeric_is_bool in HEb.
  exists E. split; [exact HE|].
  split; [unfold series_mul, series_binop; now rewrite HE|].
  split; [exact HEo|].
  destruct (numeric_sub_cases _ _ HEo (to_numeric_not_object str_to_num C))
    as [[Hb Hs]|(Hb & L & Hs & HLo & HLb)];
    rewrite HEb, to_numeric_is_bool in Hb.
  - left. split; [exact Hb|].
    unfold series_sub, series_binop. now rewrite Hs.
  - right. split; [exact Hb|]. exists L.
    split; [exact Hs|].
    split; [unfold series_sub, series_binop; now rewrite Hs|auto].
Qed.

Lemma load_data_spec path df0 M T C :
  read_csv path = ok df0 ->
  getitem df0 "MonthlyCharges" = ok M ->
  getitem df0 "tenure" = ok T ->
  getitem df0 "TotalCharges" = ok C ->
  load_data str_to_num object_binop read_csv path =
  (E <- series_mul object_binop (to_numeric str_to_num T)
                                (to_numeric str_to_num M) ;;
   L <- series_sub object_binop E (to_numeric str_to_num C) ;;
   ok (enriched str_to_num df0 M T C E L)).
Proof.
  intros Hr HM HT HC. unfold load_data. rewrite Hr. simpl.
  rewrite coerce_columns_spec, HM, HT, HC. simpl.
  apply derive_columns_coerced.
Qed.

(** A load that succeeds, taken apart. *)
Lemma load_data_inv path df :
  load_data str_to_num object_binop read_csv path = ok df ->
  exists df0 M T C E L,
    read_csv path = ok df0 /\
    getitem df0 "MonthlyCharges" = ok M /\
    getitem df0 "tenure" = ok T /\
    getitem df0 "TotalCharges" = ok C /\
    numeric_binop Mul (to_numeric str_to_num T) (to_numeric str_to_num M)
      = Some (ok E) /\
    numeric_binop Sub E (to_numeric str_to_num C) = Some (ok L) /\
    is_object L = false /\ is_bool L = false /\
    is_bool T && is_bool M && is_bool C = false /\
    df = enriched str_to_num df0 M T C E L.
Proof.
  unfold load_data.
  destruct (read_csv path) as [e|df0] eqn:Hr; simpl; [discriminate|].
  rewrite coerce_columns_spec.
  destruct (getitem df0 "MonthlyCharges") as [e|M] eqn:HM; simpl; [discriminate|].
  destruct (getitem df0 "tenure") as [e|T] eqn:HT; simpl; [discriminate|].
  destruct (getitem df0 "TotalCharges") as [e|C] eqn:HC; simpl; [discriminate|].
  rewrite derive_columns_coerced.
  destruct (derived_columns_cases M T C)
    as (E & HE & HEs & _ & [[Hb Hs]|(Hb & L & HL & HLs & HLo & HLb)]);
    rewrite HEs; simpl.
  - rewrite Hs. discriminate.
  - rewrite HLs. simpl. intros [= <-].
    exists df0, M, T, C, E, L. repeat split; auto.
Qed.

(** A load on a table that has the three columns, not all [bool]. *)
Lemma load_data_ok path df0 M T C :
  read_csv path = ok df0 ->
  getitem df0 "MonthlyCharges" = ok M ->
  getitem df0 "tenure" = ok T ->
  getitem df0 "TotalCharges" = ok C ->
  is_bool T && is_bool M && is_bool C = false ->
  exists E L,
    numeric_binop Mul (to_numeric str_to_num T) (to_numeric str_to_num M)
      = Some (ok E) /\
    numeric_binop Sub E (to_numeric str_to_num C) = Some (ok L) /\
    is_object L = false /\
    load_data str_to_num object_binop read_csv path
      = ok (enriched str_to_num df0 M T C E L).
Proof.
  intros Hr HM HT HC Hb.
  rewrite (load_data_spec _ _ _ _ _ Hr HM HT HC).
  destruct (derived_columns_cases M T C)
    as (E & HE & HEs & _ & [[Hb' _]|(_ & L & HL & HLs & HLo & _)]).
  - congruence.
  - exists E, L. rewrite HEs. simpl. rewrite HLs. simpl. auto.
Qed.

(** A load on a table whose three columns are all [bool]. *)
Lemma load_data_all_bool path df0 M T C :
  read_csv path = ok df0 ->
  getitem df0 "MonthlyCharges" = ok M ->
  getitem df0 "tenure" = ok T ->
  getitem df0 "TotalCharges" = ok C ->
  is_bool T && is_bool M && is_bool C = true ->
  load_data str_to_num object_binop read_csv path = raise TypeError.
Proof.
  intros Hr HM HT HC Hb.
  rewrite (load_data_spec _ _ _ _ _ Hr HM HT HC).
  destruct (derived_columns_cases M T C)
    as (E & HE & HEs & _ & [[_ Hs]|(Hb' & _)]).
  - rewrite HEs. simpl. now rewrite Hs.
  - congruence.
Qed.

(** The five columns the loader writes, read back. *)
Lemma enriched_columns df0 M T C E L :
  let df := enriched str_to_num df0 M T C E L in
  getitem df "MonthlyCharges" = ok (to_numeric str_to_num M) /\
  getitem df "tenure" = ok (to_numeric str_to_num T) /\
  getitem df "TotalCharges" = ok (to_numeric str_to_num C) /\
  getitem df "ExpectedRevenue" = ok E /\
  getitem df "RevenueLeakage" = ok L.
Proof.
  unfold enriched, coerced. cbv zeta.
  autorewrite with frame. auto.
Qed.

(** Every row of a loaded table: the two derived cells are computed from
    the three source cells. *)
Lemma loaded_row path df i t m c :
  load_data str_to_num object_binop read_csv path = ok df ->
  cell_at df "tenure" i = Some t ->
  cell_at df "MonthlyCharges" i = Some m ->
  cell_at df "TotalCharges" i = Some c ->
  exists e l,
    cell_at df "ExpectedRevenue" i = Some e /\
    cell_arith Mul t m = Some e /\
    cell_at df "RevenueLeakage" i = Some l /\
    cell_arith Sub e c = Some l.
Proof.
  intros Hload Ht Hm Hc.
  apply load_data_inv in Hload
    as (df0 & M & T & C & E & L & _ & _ & _ & _ & HE & HL & _ & _ & _ & ->).
  destruct (enriched_columns df0 M T C E L) as (HM' & HT' & HC' & HE' & HL').
  unfold cell_at in *.
  rewrite HM' in Hm. rewrite HT' in Ht. rewrite HC' in Hc.
  rewrite HE', HL'.
  destruct (numeric_binop_cells _ _ _ _ _ _ _ HE Ht Hm) as (e & He & Hem).
  destruct (numeric_binop_cells _ _ _ _ _ _ _ HL He Hc) as (l & Hl & Hlm).
  exists e, l. auto.
Qed.

End LoaderFacts.

(** ** Derived fields, row by row *)




(** C2, as stated, fails: on the row (tenure 5, monthly 20, total "NA")
    only RevenueLeakage is missing, ExpectedRevenue is 100. *)
Lemma any_failure_blanks_both_fails :
  ~ any_failure_blanks_both plain_integer no_object_arith
      (one_file "b.csv" scenario_B) "b.csv".
Proof.
  intros H.
  destruct (H _ 0 (Int 5) (Int 20) (Num PrimFloat.nan)
              eq_refl eq_refl eq_refl eq_refl
              (or_intror (or_intror eq_refl)))
    as (e & l & He & _).
  vm_compute in He. discriminate.
Qed.

(** C2, amended: a missing tenure or MonthlyCharges makes both derived
    fields of the row missing; a missing TotalCharges makes RevenueLeakage
    missing and leaves ExpectedRevenue the product tenure * MonthlyCharges.
    The missing value is NaN, which is not zero. *)
Theorem missing_operand_propagates
  (str_to_num : string -> option parsed)
  (object_binop : binop -> Series -> Series -> result Series)
  (read_csv : string -> result DataFrame)
  (path : string) (df : DataFrame) (i : nat) (t m c : cell) :
  load_data str_to_num object_binop read_csv path = ok df ->
  cell_at df "tenure" i = Some t ->
  cell_at df "MonthlyCharges" i = Some m ->
  cell_at df "TotalCharges" i = Some c ->
  (cell_isna t = true \/ cell_isna m = true ->
   cell_at df "ExpectedRevenue" i = Some (Num PrimFloat.nan) /\
   cell_at df "RevenueLeakage" i = Some (Num PrimFloat.nan)) /\
  (cell_isna c = true ->
   cell_at df "RevenueLeakage" i = Some (Num PrimFloat.nan) /\
   exists e, cell_at df "ExpectedRevenue" i = Some e /\
             cell_arith Mul t m = Some e) /\
  cell_isna (Num PrimFloat.nan) = true /\
  cell_isna (Num PrimFloat.zero) = false /\
  cell_isna (Int 0) = false.
Proof.
  intros Hload Ht Hm Hc.
  destruct (loaded_row _ _ _ _ _ _ _ _ _ Hload Ht Hm Hc)
    as (e & l & He & Hmul & Hl & Hsub).
  rewrite He, Hl.
  split; [|split; [|repeat split]].
  - intros Hna.
    assert (e = Num PrimFloat.nan) as ->.
    { destruct Hna as [Hna|Hna]; apply cell_isna_nan in Hna; subst.
      - eapply cell_arith_nan_l; eassumption.
      - eapply cell_arith_nan_r; eassumption. }
    apply cell_arith_nan_l in Hsub. now subst.
  - intros Hna. apply cell_isna_nan in Hna. subst c.
    apply cell_arith_nan_r in Hsub. subst l. eauto.
Qed.

Lemma missing_operand_propagates_witness :
  exists df,
    load_data plain_integer no_object_arith
      (one_file "b.csv" scenario_B) "b.csv" = ok df /\
    cell_at df "RevenueLeakage" 0 = Some (Num PrimFloat.nan) /\
    cell_at df "ExpectedRevenue" 0 = Some (Int 100).
Proof.
  eexists. split; [reflexivity|].
  destruct (missing_operand_propagates plain_integer no_object_arith
              (one_file "b.csv" scenario_B) "b.csv" _ 0
              (Int 5) (Int 20) (Num PrimFloat.nan)
              eq_refl eq_refl eq_refl eq_refl)
    as (_ & Htotal & _).
  destruct (Htotal eq_refl) as (Hl & e & He & Hmul).
  split; [exact Hl|]. rewrite He. f_equal.
  vm_compute in Hmul. now injection Hmul as <-.
Defined.

(** ** The aggregator *)

Lemma no_text_filter l : existsb is_text l = false -> filter is_text l = [].
Proof.
  induction l as [|o l IH]; simpl; [reflexivity|].
  destruct (is_text o); simpl; [discriminate|exact IH].
Qed.

Lemma text_filter l :
  existsb is_text l = true -> exists o rest, filter is_text l = o :: rest.
Proof.
  induction l as [|o l IH]; simpl; [discriminate|].
  destruct (is_text o); simpl; eauto.
Qed.

Lemma filter_map {A B : Type} (f : A -> B) (p : B -> bool) l :
  filter p (map f l) = map f (filter (fun a => p (f a)) l).
Proof.
  induction l as [|a l IH]; simpl; [reflexivity|].
  destruct (p (f a)); simpl; now rewrite IH.
Qed.

Lemma filter_all {A : Type} (p : A -> bool) l :
  (forall a, p a = true) -> filter p l = l.
Proof.
  intros Hp. induction l as [|a l IH]; simpl; [reflexivity|].
  now rewrite Hp, IH.
Qed.

Lemma filter_ext_bool {A : Type} (p q : A -> bool) l :
  (forall a, p a = q a) -> filter p l = filter q l.
Proof.
  intros H. induction l as [|a l IH]; simpl; [reflexivity|].
  now rewrite H, IH.
Qed.

Lemma bool_sum_map_filter {A : Type} (f : A -> bool) l :
  bool_sum (map f l) = length (filter f l).
Proof.
  induction l as [|x l IH]; simpl; [reflexivity|].
  rewrite IH. now destruct (f x).
Qed.

Lemma bool_sum_filter l : bool_sum l = length (filter (fun b => b) l).
Proof.
  induction l as [|b l IH]; simpl; [reflexivity|].
  rewrite IH. now destruct b.
Qed.

(** The rows [dropna] keeps are the rows that are not missing. *)
Lemma cells_dropna col :
  cells (dropna col) = filter (fun c => negb (cell_isna c)) (cells col).
Proof.
  destruct col as [l|l|l|l]; simpl.
  - rewrite filter_map. simpl. now rewrite filter_all.
  - unfold dropna_floats. now rewrite filter_map.
  - rewrite filter_map. simpl. now rewrite filter_all.
  - rewrite filter_map. f_equal. apply filter_ext_bool.
    now intros [s|].
Qed.

Lemma series_len_dropna col : series_len (dropna col) = count_notna col.
Proof. unfold series_len, count_notna. now rewrite cells_dropna. Qed.

Lemma not_positive_when_missing x :
  isna x = true -> PrimFloat.ltb PrimFloat.zero x = false.
Proof. intros H. apply isna_spec in H. now subst x. Qed.

Lemma filter_filter {A : Type} (p q : A -> bool) l :
  filter p (filter q l) = filter (fun a => q a && p a) l.
Proof.
  induction l as [|a l IH]; simpl; [reflexivity|].
  destruct (q a); simpl; [|exact IH]. destruct (p a); now rewrite IH.
Qed.

Section AggregatorFacts.

Variable accumulate : list float -> float.
Variable accumulate_int : list Z -> float.

(** The aggregator on a column without text. *)
Lemma column_statistics_ok rows col :
  has_text col = false ->
  exists st,
    column_statistics accumulate accumulate_int rows col = ok st /\
    total_records st = rows /\
    positive_leakage_count st = positive_cells col.
Proof.
  unfold column_statistics, positive_cells.
  destruct col as [l|l|l|l]; simpl; intros Htext.
  - eexists. split; [reflexivity|]. split; [reflexivity|]. simpl.
    now rewrite bool_sum_map_filter, filter_map, length_map.
  - eexists. split; [reflexivity|]. split; [reflexivity|]. simpl.
    rewrite bool_sum_map_filter, filter_map, length_map.
    unfold dropna_floats. now rewrite filter_filter.
  - eexists. split; [reflexivity|]. split; [reflexivity|]. simpl.
    now rewrite bool_sum_filter, filter_map, length_map.
  - rewrite (no_text_filter _ Htext).
    eexists. split; [reflexivity|]. split; [reflexivity|]. simpl.
    rewrite filter_map, length_map.
    assert (H : filter (fun o => negb (cell_isna (object_cell o))
                                 && cell_positive (object_cell o)) l = []).
    { clear Htext. induction l as [|[s|] l IH]; simpl; auto. }
    now rewrite H.
Qed.

Lemma compute_statistics_column df col :
  getitem df "RevenueLeakage" = ok col ->
  compute_statistics accumulate accumulate_int df =
  column_statistics accumulate accumulate_int (len df) col.
Proof. intros H. unfold compute_statistics. now rewrite H. Qed.

(** C3: total_records is the number of rows of the table handed to the
    aggregator: the rows whose RevenueLeakage is missing are counted with
    the others, it is not the number of rows that survive [dropna]. *)
Theorem total_records_counts_every_row (df : DataFrame) (col : Series) :
  getitem df "RevenueLeakage" = ok col ->
  has_text col = false ->
  exists st,
    compute_statistics accumulate accumulate_int df = ok st /\
    total_records st = len df /\
    (wf_frame df = true ->
     total_records st =
       length (filter cell_isna (cells col)) + count_notna col).
Proof.
  intros H Htext. rewrite (compute_statistics_column _ _ H).
  destruct (column_statistics_ok (len df) col Htext) as (st & Hst & Hn & _).
  exists st. split; [exact Hst|]. split; [exact Hn|].
  intros Hwf. rewrite Hn. unfold count_notna.
  rewrite filter_length.
  symmetry. apply (wf_column_length _ _ _ Hwf H).
Qed.


(** C6: positive_leakage_count counts the non-missing RevenueLeakage
    values strictly above 0, and
    positive_leakage_count <= rows with non-missing leakage <= total_records. *)
Theorem counts_are_ordered (df : DataFrame) (col : Series) :
  wf_frame df = true ->
  getitem df "RevenueLeakage" = ok col ->
  has_text col = false ->
  exists st,
    compute_statistics accumulate accumulate_int df = ok st /\
    positive_leakage_count st =
      length (filter (fun c => negb (cell_isna c) && cell_positive c)
                     (cells col)) /\
    positive_leakage_count st <= count_notna col /\
    count_notna col <= total_records st.
Proof.
  intros Hwf H Htext. rewrite (compute_statistics_column _ _ H).
  destruct (column_statistics_ok (len df) col Htext) as (st & Hst & Hn & Hp).
  exists st. split; [exact Hst|]. split; [exact Hp|]. split.
  - rewrite Hp. unfold positive_cells, count_notna.
    rewrite <- filter_filter. apply filter_length_le.
  - rewrite Hn. unfold len. rewrite <- (wf_column_length _ _ _ Hwf H).
    apply filter_length_le.
Qed.

(** X4: the aggregator raises [KeyError] exactly on a table without a
    RevenueLeakage column and [TypeError] exactly when that column holds a
    piece of text; on every other table it returns its four statistics. *)
Theorem compute_statistics_outcome (df : DataFrame) :
  (compute_statistics accumulate accumulate_int df
     = raise (KeyError "RevenueLeakage") <->
   has_column df "RevenueLeakage" = false) /\
  (compute_statistics accumulate accumulate_int df = raise TypeError <->
   exists col, getitem df "RevenueLeakage" = ok col /\
               has_text col = true) /\
  ((exists st, compute_statistics accumulate accumulate_int df = ok st) <->
   exists col, getitem df "RevenueLeakage" = ok col /\
               has_text col = false).
Proof.
  unfold compute_statistics, has_column, getitem.
  destruct (find_column (columns df) "RevenueLeakage") as [col|]; simpl.
  - destruct (has_text col) eqn:Htext.
    + assert (Hraise : column_statistics accumulate accumulate_int (len df) col
                       = raise TypeError).
      { unfold column_statistics. destruct col as [l|l|l|l];
          simpl in *; try discriminate.
        destruct (text_filter _ Htext) as (o & rest & ->). reflexivity. }
      rewrite Hraise. repeat split.
      * discriminate.
      * discriminate.
      * intros _. now exists col.
      * intros [st H]. discriminate.
      * intros (c & [= <-] & H). congruence.
    + destruct (column_statistics_ok (len df) col Htext) as (st & Hst & _).
      rewrite Hst. repeat split.
      * discriminate.
      * discriminate.
      * discriminate.
      * intros (c & [= <-] & H). congruence.
      * intros _. now exists col.
      * intros _. eauto.
  - repeat split; try discriminate; try reflexivity.
    + intros (c & H & _). discriminate.
    + intros [st H]. discriminate.
    + intros (c & H & _). discriminate.
Qed.

End AggregatorFacts.

Lemma total_records_counts_every_row_witness :
  exists st,
    compute_statistics add_in_order add_ints_in_order three_loaded = ok st /\
    total_records st = 3.
Proof.
  destruct (total_records_counts_every_row add_in_order add_ints_in_order
              three_loaded
              (FloatCol [30%float; (-10)%float; PrimFloat.nan])
              eq_refl eq_refl)
    as (st & Hst & Hn & _).
  exists st. split; [exact Hst|exact Hn].
Defined.

(** C4: when no RevenueLeakage value is left after [dropna], the
    aggregator returns normally with total_leakage 0, average_leakage the
    missing marker NaN and positive_leakage_count 0; the one-row table
    (tenure 5, monthly 20, total "NA"), loaded and aggregated, gives
    total_records 1, total_leakage 0, average_leakage NaN and
    positive_leakage_count 0, whether the reader hands the numbers over
    as integers or as binary64 and the "NA" as text or as NaN. *)
Theorem empty_leakage_statistics :
  (forall (accumulate : list float -> float)
          (accumulate_int : list Z -> float)
          (df : DataFrame) (col : Series),
     getitem df "RevenueLeakage" = ok col ->
     has_text col = false ->
     count_notna col = 0 ->
     exists st,
       compute_statistics accumulate accumulate_int df = ok st /\
       total_leakage st = match col with
                          | FloatCol _ => F64 PrimFloat.zero
                          | _ => I64 0
                          end /\
       isna (average_leakage st) = true /\
       positive_leakage_count st = 0) /\
  (forall (str_to_num : string -> option parsed)
          (object_binop : binop -> Series -> Series -> result Series)
          (read_csv : string -> result DataFrame)
          (accumulate : list float -> float)
          (accumulate_int : list Z -> float)
          (path : string) (tenure monthly total : Series),
     tenure = IntCol [5%Z] \/ tenure = FloatCol [5%float] ->
     monthly = IntCol [20%Z] \/ monthly = FloatCol [20%float] ->
     total = FloatCol [PrimFloat.nan] \/
     (total = ObjectCol [Some "NA"] /\ str_to_num "NA" = None) ->
     read_csv path = ok (mkFrame 1 [("tenure", tenure);
                                     ("MonthlyCharges", monthly);
                                     ("TotalCharges", total)]) ->
     exists df st,
       load_data str_to_num object_binop read_csv path = ok df /\
       compute_statistics accumulate accumulate_int df = ok st /\
       total_records st = 1 /\
       total_leakage st = F64 PrimFloat.zero /\
       isna (average_leakage st) = true /\
       positive_leakage_count st = 0).
Proof.
  split.
  - intros accumulate accumulate_int df col H Htext Hempty.
    rewrite (compute_statistics_column _ _ _ _ H).
    rewrite <- series_len_dropna in Hempty.
    unfold column_statistics, series_len in *.
    destruct col as [l|l|l|l]; simpl in *; rewrite ?length_map in Hempty.
    + apply length_zero_iff_nil in Hempty. subst l.
      eexists. split; [reflexivity|]. repeat split.
    + apply length_zero_iff_nil in Hempty. rewrite Hempty.
      eexists. split; [reflexivity|]. repeat split.
    + apply length_zero_iff_nil in Hempty. subst l.
      eexists. split; [reflexivity|]. repeat split.
    + rewrite (no_text_filter _ Htext).
      eexists. split; [reflexivity|]. repeat split.
  - intros str_to_num object_binop read_csv accumulate accumulate_int path
           tenure monthly total Ht Hm Hc Hr.
    unfold load_data. rewrite Hr. clear Hr.
    destruct Ht as [-> | ->]; destruct Hm as [-> | ->];
      destruct Hc as [-> | [-> Hna]];
      try (unfold coerce_columns, getitem; simpl; rewrite Hna; simpl);
      (eexists; eexists; split; [vm_compute; reflexivity|];
       vm_compute; repeat split).
Qed.

Lemma empty_leakage_statistics_witness :
  exists df st,
    load_data plain_integer no_object_arith
      (one_file "b.csv" scenario_B) "b.csv" = ok df /\
    compute_statistics add_in_order add_ints_in_order df = ok st /\
    total_records st = 1 /\
    total_leakage st = F64 PrimFloat.zero /\
    isna (average_leakage st) = true /\
    positive_leakage_count st = 0.
Proof.
  apply (proj2 empty_leakage_statistics plain_integer no_object_arith
           (one_file "b.csv" scenario_B) add_in_order add_ints_in_order
           "b.csv" (IntCol [5%Z]) (IntCol [20%Z]) (ObjectCol [Some "NA"])).
  - left. reflexivity.
  - left. reflexivity.
  - right. split; reflexivity.
  - reflexivity.
Defined.



Lemma counts_are_ordered_witness :
  exists st,
    compute_statistics add_in_order add_ints_in_order three_loaded = ok st /\
    positive_leakage_count st = 1 /\
    1 <= 2 /\ 2 <= total_records st.
Proof.
  destruct (counts_are_ordered add_in_order add_ints_in_order three_loaded
              (FloatCol [30%float; (-10)%float; PrimFloat.nan])
              eq_refl eq_refl eq_refl)
    as (st & Hst & Hp & Hle1 & Hle2).
  exists st. split; [exact Hst|].
  split; [rewrite Hp; reflexivity|].
  split; [|exact Hle2]. apply le_S, le_n.
Defined.

(** ** Failure modes of the loader *)

Section FailureModes.

Variable str_to_num : string -> option parsed.
Variable object_binop : binop -> Series -> Series -> result Series.
Variable read_csv : string -> result DataFrame.

Lemma all_bool_spec df0 M T C :
  getitem df0 "MonthlyCharges" = ok M ->
  getitem df0 "tenure" = ok T ->
  getitem df0 "TotalCharges" = ok C ->
  all_bool df0 = is_bool T && is_bool M && is_bool C.
Proof.
  intros HM HT HC. unfold all_bool. rewrite HM, HT, HC.
  destruct T, M, C; reflexivity.
Qed.

Lemma all_bool_columns df0 :
  all_bool df0 = true ->
  exists M T C,
    getitem df0 "MonthlyCharges" = ok M /\
    getitem df0 "tenure" = ok T /\
    getitem df0 "TotalCharges" = ok C /\
    is_bool T && is_bool M && is_bool C = true.
Proof.
  unfold all_bool.
  destruct (getitem df0 "tenure") as [e|[]]; try discriminate.
  destruct (getitem df0 "MonthlyCharges") as [e|[]]; try discriminate.
  destruct (getitem df0 "TotalCharges") as [e|[]]; try discriminate.
  intros _. eexists _, _, _. repeat split.
Qed.

Lemma coerce_columns_cases df0 :
  (exists M T C,
     getitem df0 "MonthlyCharges" = ok M /\
     getitem df0 "tenure" = ok T /\
     getitem df0 "TotalCharges" = ok C /\
     coerce_columns str_to_num df0 = ok (coerced str_to_num df0 M T C)) \/
  (exists name,
     In name required_columns /\
     has_column df0 name = false /\
     coerce_columns str_to_num df0 = raise (KeyError name)).
Proof.
  rewrite coerce_columns_spec. unfold required_columns.
  destruct (getitem df0 "MonthlyCharges") as [e|M] eqn:HM.
  { apply getitem_raise in HM as [-> HM].
    right. exists "MonthlyCharges". simpl. auto. }
  destruct (getitem df0 "tenure") as [e|T] eqn:HT.
  { apply getitem_raise in HT as [-> HT].
    right. exists "tenure". simpl. auto. }
  destruct (getitem df0 "TotalCharges") as [e|C] eqn:HC.
  { apply getitem_raise in HC as [-> HC].
    right. exists "TotalCharges". simpl. auto. }
  left. exists M, T, C. auto.
Qed.

(** The three ways a load can go, on a table that was read. *)
Lemma load_data_cases path df0 :
  read_csv path = ok df0 ->
  (exists name,
     In name required_columns /\ has_column df0 name = false /\
     coerce_columns str_to_num df0 = raise (KeyError name) /\
     load_data str_to_num object_binop read_csv path = raise (KeyError name))
  \/
  (all_bool df0 = true /\
   (exists df1, coerce_columns str_to_num df0 = ok df1 /\
                derive_columns object_binop df1 = raise TypeError) /\
   load_data str_to_num object_binop read_csv path = raise TypeError)
  \/
  (all_bool df0 = false /\
   (forall name, In name required_columns -> has_column df0 name = true) /\
   exists df1 df,
     coerce_columns str_to_num df0 = ok df1 /\
     derive_columns object_binop df1 = ok df /\
     load_data str_to_num object_binop read_csv path = ok df).
Proof.
  intros Hr.
  destruct (coerce_columns_cases df0)
    as [(M & T & C & HM & HT & HC & Hco)|(name & Hin & Hno & Hco)].
  - right.
    pose proof (all_bool_spec _ _ _ _ HM HT HC) as Hab.
    assert (Hload : load_data str_to_num object_binop read_csv path
                    = derive_columns object_binop
                        (coerced str_to_num df0 M T C)).
    { unfold load_data. rewrite Hr. simpl. now rewrite Hco. }
    destruct (is_bool T && is_bool M && is_bool C) eqn:Hb.
    + left. split; [exact Hab|].
      pose proof (load_data_all_bool str_to_num object_binop read_csv
                    _ _ _ _ _ Hr HM HT HC Hb) as Hraise.
      split; [|exact Hraise].
      eexists. split; [exact Hco|]. now rewrite <- Hload.
    + right. split; [exact Hab|]. split.
      * intros name [<-|[<-|[<-|[]]]]; eapply getitem_has_column; eassumption.
      * destruct (load_data_ok str_to_num object_binop read_csv
                    _ _ _ _ _ Hr HM HT HC Hb) as (E & L & _ & _ & _ & Hok).
        eexists _, _. split; [exact Hco|]. split; [|exact Hok].
        now rewrite <- Hload.
  - left. exists name. repeat split; try assumption.
    unfold load_data. rewrite Hr. simpl. now rewrite Hco.
Qed.

(** C7, amended: a cell that does not parse never aborts the load.  On
    every readable table that has the three required columns, not all
    three of dtype [bool], the loader returns a table; in it each of the
    three columns is the coerced column, and each cell whose text does
    not parse is the missing marker NaN, which is not zero. *)
Theorem bad_cells_do_not_abort
  (path : string) (df0 : DataFrame) (M T C : Series) :
  read_csv path = ok df0 ->
  getitem df0 "MonthlyCharges" = ok M ->
  getitem df0 "tenure" = ok T ->
  getitem df0 "TotalCharges" = ok C ->
  is_bool T && is_bool M && is_bool C = false ->
  exists df,
    load_data str_to_num object_binop read_csv path = ok df /\
    (forall name col,
       In name required_columns ->
       getitem df0 name = ok col ->
       getitem df name = ok (to_numeric str_to_num col)) /\
    (forall name i s,
       In name required_columns ->
       cell_at df0 name i = Some (Str s) ->
       str_to_num s = None ->
       cell_at df name i = Some (Num PrimFloat.nan)) /\
    cell_isna (Num PrimFloat.nan) = true /\
    cell_isna (Num PrimFloat.zero) = false.
Proof.
  intros Hr HM HT HC Hb.
  destruct (load_data_ok str_to_num object_binop read_csv
              _ _ _ _ _ Hr HM HT HC Hb) as (E & L & _ & _ & _ & Hok).
  exists (enriched str_to_num df0 M T C E L).
  split; [exact Hok|].
  assert (Hcol : forall name col,
             In name required_columns ->
             getitem df0 name = ok col ->
             getitem (enriched str_to_num df0 M T C E L) name
               = ok (to_numeric str_to_num col)).
  { intros name col Hin Hcol.
    destruct (enriched_columns str_to_num df0 M T C E L)
      as (HM' & HT' & HC' & _ & _).
    destruct Hin as [<-|[<-|[<-|[]]]]; congruence. }
  split; [exact Hcol|]. split; [|split; reflexivity].
  intros name i s Hin Hcell Hs. unfold cell_at in *.
  destruct (getitem df0 name) as [e|col] eqn:Hg; [discriminate|].
  rewrite (Hcol name col Hin Hg).
  apply (to_numeric_bad_text str_to_num col i s); assumption.
Qed.

(** C8, amended: the loader raises exactly when the reader raises, or one
    of tenure, MonthlyCharges, TotalCharges is absent from the table read,
    or all three are of dtype [bool].  An absent column is reported as a
    [KeyError] by the coercion lines, before the lines that compute the
    derived columns are reached; on a table the coercion lines returned,
    those lines raise only when the three columns are [bool], and then a
    [TypeError]. *)
Theorem load_data_failure_modes (path : string) :
  ((exists e, load_data str_to_num object_binop read_csv path = raise e) <->
   (exists e, read_csv path = raise e) \/
   (exists df0 name,
      read_csv path = ok df0 /\
      In name required_columns /\ has_column df0 name = false) \/
   (exists df0, read_csv path = ok df0 /\ all_bool df0 = true)) /\
  (forall df0 name,
     read_csv path = ok df0 ->
     In name required_columns -> has_column df0 name = false ->
     exists missing,
       In missing required_columns /\ has_column df0 missing = false /\
       coerce_columns str_to_num df0 = raise (KeyError missing) /\
       load_data str_to_num object_binop read_csv path
         = raise (KeyError missing)) /\
  (forall df0 df1,
     read_csv path = ok df0 ->
     coerce_columns str_to_num df0 = ok df1 ->
     (all_bool df0 = false /\
      exists df, derive_columns object_binop df1 = ok df) \/
     (all_bool df0 = true /\
      derive_columns object_binop df1 = raise TypeError /\
      load_data str_to_num object_binop read_csv path = raise TypeError)).
Proof.
  split; [|split].
  - split.
    + intros [e He]. destruct (read_csv path) as [e'|df0] eqn:Hr.
      * left. now exists e'.
      * right.
        destruct (load_data_cases path df0 Hr)
          as [(name & Hin & Hno & _)|[(Hab & _)|(_ & _ & df1 & df & _ & _ & Hok)]].
        -- left. exists df0, name. auto.
        -- right. exists df0. auto.
        -- rewrite Hok in He. discriminate.
    + intros [[e He]|[(df0 & name & Hr & Hin & Hno)|(df0 & Hr & Hab)]].
      * exists e. unfold load_data. now rewrite He.
      * destruct (load_data_cases path df0 Hr)
          as [(missing & _ & _ & _ & Hl)|[(Hab & _)|(_ & Hall & _)]].
        -- eauto.
        -- apply all_bool_columns in Hab as (M & T & C & HM & HT & HC & _).
           exfalso.
           destruct Hin as [<-|[<-|[<-|[]]]];
             eapply absent_column_not_got; eassumption.
        -- rewrite (Hall name Hin) in Hno. discriminate.
      * destruct (load_data_cases path df0 Hr)
          as [(missing & _ & Hmiss & _ & Hl)|[(_ & _ & Hl)|(Hab' & _)]].
        -- eauto.
        -- eauto.
        -- congruence.
  - intros df0 name Hr Hin Hno.
    destruct (load_data_cases path df0 Hr)
      as [(missing & Hin' & Hno' & Hco & Hl)|[(Hab & _)|(_ & Hall & _)]].
    + exists missing. auto.
    + apply all_bool_columns in Hab as (M & T & C & HM & HT & HC & _).
      exfalso.
      destruct Hin as [<-|[<-|[<-|[]]]];
        eapply absent_column_not_got; eassumption.
    + rewrite (Hall name Hin) in Hno. discriminate.
  - intros df0 df1 Hr Hco.
    destruct (load_data_cases path df0 Hr)
      as [(missing & _ & _ & Hco' & _)
         |[(Hab & (df1' & Hco' & Hde) & Hl)
          |(Hab & _ & df1' & df & Hco' & Hde & _)]].
    + rewrite Hco' in Hco. discriminate.
    + right. rewrite Hco' in Hco. injection Hco as <-. auto.
    + left. rewrite Hco' in Hco. injection Hco as <-. eauto.
Qed.

End FailureModes.

(** C7, as stated, fails: a table whose three columns are read as
    booleans has the three columns and no bad cell, and the loader raises
    [TypeError] on it (line 51 subtracts two [bool] columns). *)
Lemma load_always_succeeds_fails :
  ~ load_always_succeeds plain_integer no_object_arith
      (one_file "h.csv" all_flags) "h.csv".
Proof.
  intros H.
  destruct (H all_flags eq_refl eq_refl eq_refl eq_refl) as [df Hdf].
  vm_compute in Hdf. discriminate.
Qed.

Lemma bad_cells_do_not_abort_witness :
  exists df,
    load_data plain_integer no_object_arith
      (one_file "c.csv" three_rows) "c.csv" = ok df /\
    cell_at df "TotalCharges" 1 = Some (Num 20%float) /\
    cell_at df "TotalCharges" 2 = Some (Num PrimFloat.nan).
Proof.
  destruct (bad_cells_do_not_abort plain_integer no_object_arith
              (one_file "c.csv" three_rows) "c.csv" three_rows
              (FloatCol [10%float; 10%float; 20%float])
              (IntCol [3%Z; 1%Z; 5%Z])
              (ObjectCol [Some "0"; Some "20"; Some " "])
              eq_refl eq_refl eq_refl eq_refl eq_refl)
    as (df & Hload & Hcol & Hbad & _).
  exists df. split; [exact Hload|]. split.
  - unfold cell_at.
    rewrite (Hcol "TotalCharges" (ObjectCol [Some "0"; Some "20"; Some " "]));
      [reflexivity| |reflexivity].
    right. right. left. reflexivity.
  - apply (Hbad "TotalCharges" 2 " "); [|reflexivity|reflexivity].
    right. right. left. reflexivity.
Defined.

(** C8, as stated, fails: on the all-boolean table the reader succeeds
    and no required column is absent, yet the loader raises. *)
Lemma only_two_failure_modes_fails :
  ~ only_two_failure_modes plain_integer no_object_arith
      (one_file "h.csv" all_flags) "h.csv".
Proof.
  intros [H _].
  destruct (H (ex_intro _ TypeError eq_refl))
    as [[e He]|(df0 & name & Hr & Hin & Hno)].
  - vm_compute in He. discriminate.
  - vm_compute in Hr. injection Hr as <-.
    destruct Hin as [<-|[<-|[<-|[]]]]; vm_compute in Hno; discriminate.
Qed.

Lemma load_data_failure_modes_witness :
  exists e,
    load_data plain_integer no_object_arith
      (one_file "e.csv" no_total) "e.csv" = raise e.
Proof.
  apply (proj2 (proj1 (load_data_failure_modes plain_integer no_object_arith
                         (one_file "e.csv" no_total) "e.csv"))).
  right. left. exists no_total, "TotalCharges".
  split; [reflexivity|]. split; [|reflexivity].
  right. right. left. reflexivity.
Defined.

(** ** The shape of the loaded table *)

Section Shape.

Variable str_to_num : string -> option parsed.
Variable object_binop : binop -> Series -> Series -> result Series.
Variable read_csv : string -> result DataFrame.

(** The two derived columns are as long as the shortest of the columns
    they are computed from. *)
Lemma derived_lengths M T C E L :
  numeric_binop Mul (to_numeric str_to_num T) (to_numeric str_to_num M)
    = Some (ok E) ->
  numeric_binop Sub E (to_numeric str_to_num C) = Some (ok L) ->
  series_len E = Nat.min (series_len T) (series_len M) /\
  series_len L = Nat.min (Nat.min (series_len T) (series_len M))
                         (series_len C).
Proof.
  intros HE HL.
  apply numeric_binop_length in HE. apply numeric_binop_length in HL.
  rewrite !to_numeric_length in *. rewrite HL, HE. auto.
Qed.

(** C10, amended: when the table read has no column named ExpectedRevenue
    or RevenueLeakage, the loaded table has the same number of rows, every
    column other than tenure, MonthlyCharges and TotalCharges is unchanged,
    the header is the old header followed by ExpectedRevenue and
    RevenueLeakage, and every column still has one cell per row. *)
Theorem loader_appends_two_columns
  (path : string) (df0 df : DataFrame) :
  read_csv path = ok df0 ->
  load_data str_to_num object_binop read_csv path = ok df ->
  has_column df0 "ExpectedRevenue" = false ->
  has_column df0 "RevenueLeakage" = false ->
  len df = len df0 /\
  (forall name s,
     ~ In name required_columns ->
     getitem df0 name = ok s -> getitem df name = ok s) /\
  map fst (columns df) =
    map fst (columns df0) ++ ["ExpectedRevenue"; "RevenueLeakage"] /\
  (wf_frame df0 = true -> wf_frame df = true).
Proof.
  intros Hr Hload HnoE HnoL.
  apply load_data_inv in Hload
    as (df0' & M & T & C & E & L & Hr' & HM & HT & HC & HE & HL & _ & _ & _ & ->).
  rewrite Hr in Hr'. injection Hr' as <-.
  split; [reflexivity|]. split; [|split].
  - intros name s Hnot Hs.
    assert (String.eqb "MonthlyCharges" name = false /\
            String.eqb "tenure" name = false /\
            String.eqb "TotalCharges" name = false /\
            String.eqb "ExpectedRevenue" name = false /\
            String.eqb "RevenueLeakage" name = false) as (H1 & H2 & H3 & H4 & H5).
    { repeat split; apply String.eqb_neq; intros <-.
      - apply Hnot. simpl. auto.
      - apply Hnot. simpl. auto.
      - apply Hnot. simpl. auto.
      - exact (absent_column_not_got _ _ _ HnoE Hs).
      - exact (absent_column_not_got _ _ _ HnoL Hs). }
    unfold enriched, coerced.
    now rewrite !getitem_setitem_other by assumption.
  - unfold enriched, coerced.
    rewrite !names_setitem.
    rewrite !has_column_setitem_other by reflexivity.
    rewrite HnoE, HnoL.
    rewrite (getitem_has_column _ _ _ HM), (getitem_has_column _ _ _ HT),
      (getitem_has_column _ _ _ HC).
    now rewrite <- app_assoc.
  - intros Hwf.
    pose proof (wf_column_length _ _ _ Hwf HM) as LM.
    pose proof (wf_column_length _ _ _ Hwf HT) as LT.
    pose proof (wf_column_length _ _ _ Hwf HC) as LC.
    destruct (derived_lengths _ _ _ _ _ HE HL) as [LE LL].
    unfold enriched, coerced.
    repeat apply wf_setitem; try assumption; simpl;
      rewrite ?to_numeric_length; lia.
Qed.

(** X1: the reader's exception is passed on as it is; on a table that was
    read, the [KeyError] names the first absent column in the order in
    which lines 46-48 look them up: MonthlyCharges, tenure, TotalCharges. *)
Theorem load_data_reports_first_absent_column (path : string) :
  (forall e, read_csv path = raise e ->
             load_data str_to_num object_binop read_csv path = raise e) /\
  (forall df0,
     read_csv path = ok df0 ->
     (has_column df0 "MonthlyCharges" = false ->
      load_data str_to_num object_binop read_csv path
        = raise (KeyError "MonthlyCharges")) /\
     (has_column df0 "MonthlyCharges" = true ->
      has_column df0 "tenure" = false ->
      load_data str_to_num object_binop read_csv path
        = raise (KeyError "tenure")) /\
     (has_column df0 "MonthlyCharges" = true ->
      has_column df0 "tenure" = true ->
      has_column df0 "TotalCharges" = false ->
      load_data str_to_num object_binop read_csv path
        = raise (KeyError "TotalCharges"))).
Proof.
  split.
  - intros e He. unfold load_data. now rewrite He.
  - intros df0 Hr. unfold load_data. rewrite Hr. simpl.
    rewrite coerce_columns_spec. unfold has_column, getitem.
    destruct (find_column (columns df0) "MonthlyCharges");
      destruct (find_column (columns df0) "tenure");
      destruct (find_column (columns df0) "TotalCharges");
      simpl; repeat split; intros; try discriminate; reflexivity.
Qed.

(** X2: the loader keeps the number of rows and every column other than the
    five it writes; a derived column whose name is already in the header
    keeps its place there, one that is not is appended: ExpectedRevenue
    first, RevenueLeakage after it.  Columns stay as long as the index. *)
Theorem load_data_header
  (path : string) (df0 df : DataFrame) :
  read_csv path = ok df0 ->
  load_data str_to_num object_binop read_csv path = ok df ->
  len df = len df0 /\
  map fst (columns df) =
    map fst (columns df0)
    ++ (if has_column df0 "ExpectedRevenue" then [] else ["ExpectedRevenue"])
    ++ (if has_column df0 "RevenueLeakage" then [] else ["RevenueLeakage"]) /\
  (forall name,
     ~ In name (required_columns ++ ["ExpectedRevenue"; "RevenueLeakage"]) ->
     getitem df name = getitem df0 name) /\
  (wf_frame df0 = true -> wf_frame df = true).
Proof.
  intros Hr Hload.
  apply load_data_inv in Hload
    as (df0' & M & T & C & E & L & Hr' & HM & HT & HC & HE & HL & _ & _ & _ & ->).
  rewrite Hr in Hr'. injection Hr' as <-.
  split; [reflexivity|]. split; [|split].
  - unfold enriched, coerced.
    rewrite !names_setitem.
    rewrite !has_column_setitem_other by reflexivity.
    rewrite (getitem_has_column _ _ _ HM), (getitem_has_column _ _ _ HT),
      (getitem_has_column _ _ _ HC).
    destruct (has_column df0 "ExpectedRevenue");
      destruct (has_column df0 "RevenueLeakage");
      rewrite ?app_nil_r, <- ?app_assoc; reflexivity.
  - intros name Hnot.
    assert (String.eqb "MonthlyCharges" name = false /\
            String.eqb "tenure" name = false /\
            String.eqb "TotalCharges" name = false /\
            String.eqb "ExpectedRevenue" name = false /\
            String.eqb "RevenueLeakage" name = false) as (H1 & H2 & H3 & H4 & H5).
    { repeat split; apply String.eqb_neq; intros <-; apply Hnot;
        simpl; tauto. }
    unfold enriched, coerced.
    now rewrite !getitem_setitem_other by assumption.
  - intros Hwf.
    pose proof (wf_column_length _ _ _ Hwf HM) as LM.
    pose proof (wf_column_length _ _ _ Hwf HT) as LT.
    pose proof (wf_column_length _ _ _ Hwf HC) as LC.
    destruct (derived_lengths _ _ _ _ _ HE HL) as [LE LL].
    unfold enriched, coerced.
    repeat apply wf_setitem; try assumption; simpl;
      rewrite ?to_numeric_length; lia.
Qed.

(** X3: a table the loader returned goes through the loader unchanged: its
    three source columns are numbers already, and the derived columns are
    recomputed to the same values and written back in place. *)
Theorem load_data_idempotent
  (read_again : string -> result DataFrame)
  (path path' : string) (df : DataFrame) :
  load_data str_to_num object_binop read_csv path = ok df ->
  read_again path' = ok df ->
  load_data str_to_num object_binop read_again path' = ok df.
Proof.
  intros Hload Hr.
  apply load_data_inv in Hload
    as (df0 & M & T & C & E & L & _ & _ & _ & _ & HE & HL & _ & _ & _ & Hdf).
  destruct (enriched_columns str_to_num df0 M T C E L)
    as (HM & HT & HC & HE' & HL').
  rewrite <- Hdf in HM, HT, HC, HE', HL'.
  rewrite (load_data_spec _ _ _ _ _ _ _ _ Hr HM HT HC).
  rewrite !(to_numeric_numeric str_to_num (to_numeric str_to_num _))
    by apply to_numeric_not_object.
  unfold series_mul, series_sub, series_binop.
  rewrite HE. simpl. rewrite HL. simpl. f_equal.
  unfold enriched, coerced.
  rewrite !(to_numeric_numeric str_to_num (to_numeric str_to_num _))
    by apply to_numeric_not_object.
  rewrite (setitem_same_value _ _ _ HM).
  rewrite (setitem_same_value _ _ _ HT).
  rewrite (setitem_same_value _ _ _ HC).
  rewrite (setitem_same_value _ _ _ HE').
  now rewrite (setitem_same_value _ _ _ HL').
Qed.

End Shape.

(** C10, as stated, fails: a table that already has an ExpectedRevenue
    column gets that column overwritten, and only one column is added. *)
Lemma loader_only_appends_fails :
  ~ loader_only_appends plain_integer no_object_arith
      (one_file "d.csv" with_expected) "d.csv".
Proof.
  intros H.
  destruct (H with_expected _ eq_refl eq_refl) as (_ & _ & Hnames).
  vm_compute in Hnames. discriminate.
Qed.

Lemma loader_appends_two_columns_witness :
  exists df,
    load_data plain_integer no_object_arith
      (one_file "c.csv" three_rows) "c.csv" = ok df /\
    len df = 3 /\
    map fst (columns df) =
      ["customerID"; "tenure"; "MonthlyCharges"; "TotalCharges";
       "ExpectedRevenue"; "RevenueLeakage"].
Proof.
  eexists. split; [reflexivity|].
  destruct (loader_appends_two_columns plain_integer no_object_arith
              (one_file "c.csv" three_rows) "c.csv" three_rows _
              eq_refl eq_refl eq_refl eq_refl)
    as (Hlen & _ & Hnames & _).
  split; [exact Hlen|exact Hnames].
Defined.

(** A table without tenure and without TotalCharges. *)
Lemma load_data_reports_first_absent_column_witness :
  load_data plain_integer no_object_arith
    (one_file "f.csv" (mkFrame 1 [("MonthlyCharges", FloatCol [20%float])]))
    "f.csv" = raise (KeyError "tenure").
Proof.
  apply (proj2 (load_data_reports_first_absent_column plain_integer
                  no_object_arith
                  (one_file "f.csv"
                     (mkFrame 1 [("MonthlyCharges", FloatCol [20%float])]))
                  "f.csv") _ eq_refl); reflexivity.
Defined.

Lemma load_data_header_witness :
  exists df,
    load_data plain_integer no_object_arith
      (one_file "d.csv" with_expected) "d.csv" = ok df /\
    map fst (columns df) =
      ["tenure"; "MonthlyCharges"; "TotalCharges"; "ExpectedRevenue";
       "RevenueLeakage"] /\
    wf_frame df = true.
Proof.
  eexists. split; [reflexivity|].
  destruct (load_data_header plain_integer no_object_arith
              (one_file "d.csv" with_expected)
              "d.csv" with_expected _ eq_refl eq_refl)
    as (_ & Hnames & _ & Hwf).
  split; [exact Hnames|]. apply Hwf. reflexivity.
Defined.

Lemma load_data_idempotent_witness :
  load_data plain_integer no_object_arith
    (one_file "again.csv" three_loaded) "again.csv"
  = ok three_loaded.
Proof.
  apply (load_data_idempotent plain_integer no_object_arith
           (one_file "c.csv" three_rows)
           (one_file "again.csv" three_loaded) "c.csv" "again.csv");
    reflexivity.
Defined.

(** ** The aggregator after the loader *)

Lemma missing_is_not_positive c :
  cell_isna c = true -> cell_positive c = false.
Proof.
  destruct c; simpl; try discriminate. apply not_positive_when_missing.
Qed.

Lemma positive_cells_all col :
  positive_cells col = length (filter cell_positive (cells col)).
Proof.
  unfold positive_cells. f_equal. apply filter_ext_bool. intros c.
  destruct (cell_isna c) eqn:E; simpl; [|reflexivity].
  now rewrite (missing_is_not_positive _ E).
Qed.

(** X5: lines 101-102 of [main]: on every table that was read and has the
    three required columns, not all three of dtype [bool], the loader
    followed by the aggregator returns statistics.  They are the
    statistics of the column
    to_numeric(tenure) * to_numeric(MonthlyCharges) - to_numeric(TotalCharges);
    total_records is the number of rows read; a row is counted as
    positive exactly when its leakage is above 0, and dropping the
    missing values first changes nothing to that count. *)
Theorem statistics_of_loaded_table
  (str_to_num : string -> option parsed)
  (object_binop : binop -> Series -> Series -> result Series)
  (read_csv : string -> result DataFrame)
  (accumulate : list float -> float) (accumulate_int : list Z -> float)
  (path : string) (df0 : DataFrame) (M T C : Series) :
  read_csv path = ok df0 ->
  getitem df0 "MonthlyCharges" = ok M ->
  getitem df0 "tenure" = ok T ->
  getitem df0 "TotalCharges" = ok C ->
  is_bool T && is_bool M && is_bool C = false ->
  exists df E L st,
    numeric_binop Mul (to_numeric str_to_num T) (to_numeric str_to_num M)
      = Some (ok E) /\
    numeric_binop Sub E (to_numeric str_to_num C) = Some (ok L) /\
    load_data str_to_num object_binop read_csv path = ok df /\
    compute_statistics accumulate accumulate_int df = ok st /\
    column_statistics accumulate accumulate_int (len df0) L = ok st /\
    total_records st = len df0 /\
    positive_leakage_count st = length (filter cell_positive (cells L)).
Proof.
  intros Hr HM HT HC Hb.
  destruct (load_data_ok str_to_num object_binop read_csv
              _ _ _ _ _ Hr HM HT HC Hb) as (E & L & HE & HL & HLo & Hok).
  assert (Htext : has_text L = false) by (destruct L; auto; discriminate).
  destruct (column_statistics_ok accumulate accumulate_int (len df0) L Htext)
    as (st & Hst & Hn & Hp).
  exists (enriched str_to_num df0 M T C E L), E, L, st.
  split; [exact HE|]. split; [exact HL|]. split; [exact Hok|].
  split.
  { rewrite (compute_statistics_column _ _ _ L); [exact Hst|].
    apply enriched_columns. }
  split; [exact Hst|]. split; [exact Hn|].
  now rewrite Hp, positive_cells_all.
Qed.

Lemma statistics_of_loaded_table_witness :
  exists df st,
    load_data plain_integer no_object_arith
      (one_file "c.csv" three_rows) "c.csv" = ok df /\
    compute_statistics add_in_order add_ints_in_order df = ok st /\
    total_records st = 3 /\ positive_leakage_count st = 1.
Proof.
  destruct (statistics_of_loaded_table plain_integer no_object_arith
              (one_file "c.csv" three_rows) add_in_order add_ints_in_order
              "c.csv" three_rows
              (FloatCol [10%float; 10%float; 20%float])
              (IntCol [3%Z; 1%Z; 5%Z])
              (ObjectCol [Some "0"; Some "20"; Some " "])
              eq_refl eq_refl eq_refl eq_refl eq_refl)
    as (df & E & L & st & HE & HL & Hload & Hst & _ & Hn & Hp).
  exists df, st.
  split; [exact Hload|]. split; [exact Hst|]. split; [exact Hn|].
  rewrite Hp. vm_compute in HE. injection HE as <-.
  vm_compute in HL. injection HL as <-. reflexivity.
Defined.

(** * The reporter and the entry point *)

(** ** Programs and sequences of calls *)

Section ReporterFacts.

Variable fails : list call -> call -> bool.

Lemma pbind_lift_ok {A B : Type} (a : A) (k : A -> prog B) h :
  pbind (lift (ok a)) k h = k a h.
Proof.
  unfold pbind, lift. rewrite app_nil_r. now destruct (k a h).
Qed.

Lemma pbind_lift_raise {A B : Type} (e : exn) (k : A -> prog B) h :
  pbind (lift (raise e)) k h = ([], inl (Raised e)).
Proof. reflexivity. Qed.

Lemma pbind_perform {B : Type} c (k : unit -> prog B) h :
  pbind (perform fails c) k h =
  if fails h c then ([c], inl (LibraryError c))
  else let (t, r) := k tt (h ++ [c]) in (c :: t, r).
Proof. unfold pbind, perform. now destruct (fails h c). Qed.

Lemma perform_one c h : perform fails c h = perform_all fails [c] h.
Proof. unfold perform. simpl. now destruct (fails h c). Qed.

Lemma perform_then c (p : prog unit) cs :
  (forall h, p h = perform_all fails cs h) ->
  forall h, pbind (perform fails c) (fun _ => p) h
            = perform_all fails (c :: cs) h.
Proof.
  intros Hp h. rewrite pbind_perform. simpl.
  destruct (fails h c); [reflexivity|]. now rewrite Hp.
Qed.

Lemma perform_all_then (p q : prog unit) cs cs' :
  (forall h, p h = perform_all fails cs h) ->
  (forall h, q h = perform_all fails cs' h) ->
  forall h, pbind p (fun _ => q) h = perform_all fails (cs ++ cs') h.
Proof.
  intros Hp Hq h. unfold pbind. rewrite Hp. clear Hp p.
  revert h. induction cs as [|c cs IH]; intros h; simpl.
  - rewrite app_nil_r, Hq. now destruct (perform_all fails cs' h).
  - destruct (fails h c); [reflexivity|].
    specialize (IH (h ++ [c])).
    destruct (perform_all fails cs (h ++ [c])) as [t [e|[]]].
    + now rewrite <- IH.
    + rewrite <- app_assoc in IH. simpl in IH.
      rewrite <- IH.
      now destruct (q (h ++ c :: t)).
Qed.

(** A sequence of calls stops at the first call that raises: the calls
    made are the whole list, or they end with the call that raised. *)
Lemma perform_all_cases cs h t r :
  perform_all fails cs h = (t, r) ->
  (t = cs /\ r = inr tt) \/
  (exists pre c post,
     cs = pre ++ c :: post /\ t = pre ++ [c] /\
     r = inl (LibraryError c) /\ fails (h ++ pre) c = true).
Proof.
  revert h t r. induction cs as [|c cs IH]; intros h t r; simpl.
  - intros [= <- <-]. now left.
  - destruct (fails h c) eqn:E.
    + intros [= <- <-]. right. exists [], c, cs.
      rewrite app_nil_r. auto.
    + destruct (perform_all fails cs (h ++ [c])) as [t' r'] eqn:E'.
      intros [= <- <-].
      destruct (IH _ _ _ E') as [[-> ->]|(pre & d & post & -> & -> & -> & Hd)].
      * now left.
      * right. exists (c :: pre), d, post.
        rewrite <- app_assoc in Hd. auto.
Qed.

Lemma perform_all_cons_inv c cs h t r :
  perform_all fails (c :: cs) h = (t, r) ->
  (fails h c = true /\ t = [c] /\ r = inl (LibraryError c)) \/
  (fails h c = false /\
   exists t', t = c :: t' /\ perform_all fails cs (h ++ [c]) = (t', r)).
Proof.
  simpl. destruct (fails h c).
  - intros [= <- <-]. now left.
  - destruct (perform_all fails cs (h ++ [c])) as [t' r'].
    intros [= <- <-]. right. eauto.
Qed.

Lemma perform_all_nil_inv h t r :
  perform_all fails [] h = (t, r) -> t = [] /\ r = inr tt.
Proof. simpl. now intros [= <- <-]. Qed.

End ReporterFacts.

(** Splits a run of [perform_all] on a list of known length into its
    cases, one per call that may raise and one for the run that ends well. *)
Ltac run_calls H :=
  repeat
    (let E := fresh "E" in
     let t' := fresh "t" in
     apply perform_all_cons_inv in H;
     destruct H as [(E & -> & ->)|(E & t' & -> & H)];
     [|]);
  try (apply perform_all_nil_inv in H; destruct H as [-> ->]).

(** ** The reporter *)

Section PlotFacts.

Variable fails : list call -> call -> bool.
Variable dirname : string -> string.

Lemma plot_closed_form df output_path col :
  getitem df "RevenueLeakage" = ok col ->
  forall h,
    plot_leakage_histogram fails dirname df output_path h =
    perform_all fails
      (plot_calls (dropna col) (dirname output_path) output_path) h.
Proof.
  intros Hcol h. unfold plot_leakage_histogram. rewrite Hcol.
  rewrite pbind_lift_ok. revert h. unfold plot_calls.
  repeat (apply perform_then). apply perform_one.
Qed.

(** X6: the reporter looks the RevenueLeakage column up before anything
    else: on a table without it, it raises [KeyError] and has called
    nothing, so no figure is opened, no directory is created and no file is
    written.  On a table that has the column its first call opens a
    figure. *)
Theorem plot_without_leakage_column
  (df : DataFrame) (output_path : string) (h : list call) :
  (has_column df "RevenueLeakage" = false ->
   plot_leakage_histogram fails dirname df output_path h =
     ([], inl (Raised (KeyError "RevenueLeakage")))) /\
  (has_column df "RevenueLeakage" = true ->
   exists t r,
     plot_leakage_histogram fails dirname df output_path h =
       (PltFigure :: t, r)).
Proof.
  split; intros H.
  - unfold plot_leakage_histogram, has_column, getitem in *.
    destruct (find_column (columns df) "RevenueLeakage"); [discriminate|].
    reflexivity.
  - apply has_column_getitem in H as [col Hcol].
    rewrite (plot_closed_form _ _ _ Hcol). unfold plot_calls.
    destruct (perform_all fails
                (PltFigure :: _) h) as [t r] eqn:Hrun.
    apply perform_all_cons_inv in Hrun
      as [(_ & -> & ->)|(_ & t' & -> & _)]; eauto.
Qed.

(** X7: on a table that has the column, the calls the reporter makes are an
    initial part of one fixed sequence: figure, hist on the RevenueLeakage
    cells that are not NaN with 15 bins, title, the two axis labels,
    tight_layout, makedirs on the parent of the output path, savefig on the
    output path, close.  It returns normally only after the whole sequence;
    otherwise the call that raised is the last one made, and the exception
    is that call's: no exception of the table code can occur. *)
Theorem plot_calls_in_order
  (df : DataFrame) (output_path : string) (col : Series)
  (h t : list call) (r : failure + unit) :
  getitem df "RevenueLeakage" = ok col ->
  plot_leakage_histogram fails dirname df output_path h = (t, r) ->
  forallb (fun c => negb (cell_isna c)) (cells (dropna col)) = true /\
  cells (dropna col) = filter (fun c => negb (cell_isna c)) (cells col) /\
  exists rest,
    plot_calls (dropna col) (dirname output_path) output_path
      = t ++ rest /\
    (r = inr tt -> rest = []) /\
    (r <> inr tt ->
     exists pre c,
       t = pre ++ [c] /\ r = inl (LibraryError c) /\
       fails (h ++ pre) c = true).
Proof.
  intros Hcol Hrun. split; [|split; [apply cells_dropna|]].
  { rewrite cells_dropna. apply forallb_forall. intros c Hc.
    now apply filter_In in Hc. }
  rewrite (plot_closed_form _ _ _ Hcol) in Hrun.
  apply perform_all_cases in Hrun
    as [[-> ->]|(pre & c & post & Hcs & -> & -> & Hc)].
  - exists []. rewrite app_nil_r. repeat split; auto.
    intros H. now contradiction H.
  - exists post. rewrite <- app_assoc. simpl. split; [exact Hcs|]. split.
    + discriminate.
    + intros _. exists pre, c. auto.
Qed.

(** X8: a call that raises ends the reporter on the spot.  When the call
    that raised is not close, the figure is never closed; when it comes
    before savefig (creating the directory, say), nothing is saved
    either. *)
Theorem plot_failure_skips_the_rest
  (df : DataFrame) (output_path : string) (col : Series)
  (h t : list call) (c : call) :
  getitem df "RevenueLeakage" = ok col ->
  plot_leakage_histogram fails dirname df output_path h
    = (t, inl (LibraryError c)) ->
  (c <> PltClose -> ~ In PltClose t) /\
  (c <> PltClose -> c <> PltSavefig output_path ->
   ~ In (PltSavefig output_path) t) /\
  (c = OsMakedirs (dirname output_path) ->
   ~ In (PltSavefig output_path) t /\ ~ In PltClose t).
Proof.
  intros Hcol Hrun.
  rewrite (plot_closed_form _ _ _ Hcol) in Hrun. unfold plot_calls in Hrun.
  remember (inl (LibraryError c)) as r eqn:Hr.
  run_calls Hrun; try discriminate; injection Hr as <-;
    simpl; intuition (try discriminate; try congruence).
Qed.

End PlotFacts.

Lemma plot_without_leakage_column_witness :
  plot_leakage_histogram never_fails (fun p => p) scenario_A "out/hist.png" []
  = ([], inl (Raised (KeyError "RevenueLeakage"))).
Proof.
  apply (proj1 (plot_without_leakage_column never_fails (fun p => p)
                  scenario_A "out/hist.png" [])).
  reflexivity.
Defined.

Lemma plot_calls_in_order_witness :
  exists rest,
    plot_calls (dropna (FloatCol [30%float; (-10)%float; PrimFloat.nan]))
               "out" "out/hist.png"
    = [PltFigure; PltHist (FloatCol [30%float; (-10)%float]) 15;
       PltTitle "Revenue Leakage Distribution";
       PltXlabel "Revenue Leakage (USD)"; PltYlabel "Number of Customers";
       PltTightLayout; OsMakedirs "out"] ++ rest.
Proof.
  destruct (plot_calls_in_order full_disk (fun _ => "out")
              three_loaded "out/hist.png"
              (FloatCol [30%float; (-10)%float; PrimFloat.nan]) []
              [PltFigure; PltHist (FloatCol [30%float; (-10)%float]) 15;
               PltTitle "Revenue Leakage Distribution";
               PltXlabel "Revenue Leakage (USD)";
               PltYlabel "Number of Customers";
               PltTightLayout; OsMakedirs "out"]
              (inl (LibraryError (OsMakedirs "out")))
              eq_refl eq_refl)
    as (_ & _ & rest & Hrest & _).
  exists rest. exact Hrest.
Defined.

Lemma plot_failure_skips_the_rest_witness :
  ~ In (PltSavefig "out/hist.png")
       (fst (plot_leakage_histogram full_disk (fun _ => "out")
               three_loaded "out/hist.png" [])).
Proof.
  apply (plot_failure_skips_the_rest full_disk (fun _ => "out")
           three_loaded "out/hist.png"
           (FloatCol [30%float; (-10)%float; PrimFloat.nan]) [] _
           (OsMakedirs "out") eq_refl eq_refl).
  reflexivity.
Defined.

(** ** The entry point *)

Section MainFacts.

Variable fails : list call -> call -> bool.
Variable dirname : string -> string.
Variable abspath : string -> string.
Variable path_join : list string -> string.
Variable script_file : string.
Variable format_2f : number -> string.
Variable str_to_num : string -> option parsed.
Variable object_binop : binop -> Series -> Series -> result Series.
Variable read_csv : string -> result DataFrame.
Variable accumulate : list float -> float.
Variable accumulate_int : list Z -> float.

(** X9: when the table cannot be loaded (the reader raised, a required
    column is absent, or the subtraction is not supported), [main] ends
    with the loader's exception and has called nothing: no line is printed
    and no figure is opened. *)
Theorem main_stops_when_load_fails (e : exn) (h : list call) :
  load_data str_to_num object_binop read_csv
    (data_path dirname abspath path_join script_file) = raise e ->
  main fails dirname abspath path_join script_file format_2f
       str_to_num object_binop read_csv accumulate accumulate_int h
  = ([], inl (Raised e)).
Proof.
  unfold data_path. intros H. unfold main. cbv zeta.
  now rewrite H.
Qed.

(** A loaded table always has a RevenueLeakage column the aggregator
    accepts. *)
Lemma loaded_statistics (path : string) (df : DataFrame) :
  load_data str_to_num object_binop read_csv path = ok df ->
  exists L st,
    getitem df "RevenueLeakage" = ok L /\
    compute_statistics accumulate accumulate_int df = ok st /\
    total_records st = len df.
Proof.
  intros Hload.
  apply load_data_inv in Hload
    as (df0 & M & T & C & E & L & _ & _ & _ & _ & _ & _ & HLo & _ & _ & ->).
  destruct (enriched_columns str_to_num df0 M T C E L)
    as (_ & _ & _ & _ & HL).
  assert (Htext : has_text L = false) by (destruct L; auto; discriminate).
  destruct (column_statistics_ok accumulate accumulate_int
              (len (enriched str_to_num df0 M T C E L)) L Htext)
    as (st & Hst & Hn & _).
  exists L, st. split; [exact HL|]. split; [|exact Hn].
  now rewrite (compute_statistics_column accumulate accumulate_int _ L HL).
Qed.

Lemma main_closed_form (df : DataFrame) (L : Series) (st : Stats) :
  let dp := data_path dirname abspath path_join script_file in
  let op := output_path dirname abspath path_join script_file in
  load_data str_to_num object_binop read_csv dp = ok df ->
  getitem df "RevenueLeakage" = ok L ->
  compute_statistics accumulate accumulate_int df = ok st ->
  forall h,
    main fails dirname abspath path_join script_file format_2f
         str_to_num object_binop read_csv accumulate accumulate_int h
    = perform_all fails
        (report_calls format_2f st (dropna L) (dirname op) op) h.
Proof.
  intros dp op. subst dp op. unfold data_path, output_path.
  intros Hload HL Hst h.
  unfold main. cbv zeta.
  rewrite Hload, pbind_lift_ok, Hst, pbind_lift_ok.
  revert h. unfold report_calls, summary_lines.
  cbn [app].
  repeat (apply perform_then).
  apply perform_all_then.
  - intros h. now apply plot_closed_form.
  - intros h. apply perform_one.
Qed.

(** X10: on a table the loader returned, [main] is one fixed sequence of
    calls, made up to the first that raises: the five summary lines, with
    the number of rows read as the number of customers, then the calls of
    the reporter on the non-missing cells of the RevenueLeakage column,
    then the line "Histogram saved to ...".  Neither the aggregator nor
    the reporter can raise on a loaded table. *)
Theorem main_on_loaded_table (df0 df : DataFrame) :
  let dp := data_path dirname abspath path_join script_file in
  let op := output_path dirname abspath path_join script_file in
  read_csv dp = ok df0 ->
  load_data str_to_num object_binop read_csv dp = ok df ->
  exists L st,
    getitem df "RevenueLeakage" = ok L /\
    compute_statistics accumulate accumulate_int df = ok st /\
    total_records st = len df0 /\
    forall h,
      main fails dirname abspath path_join script_file format_2f
           str_to_num object_binop read_csv accumulate accumulate_int h
      = perform_all fails
          (report_calls format_2f st (dropna L) (dirname op) op) h.
Proof.
  intros dp op Hr Hload.
  destruct (loaded_statistics dp df Hload) as (L & st & HL & Hst & Hn).
  exists L, st. split; [exact HL|]. split; [exact Hst|]. split.
  - rewrite Hn.
    apply load_data_inv in Hload
      as (df0' & M & T & C & E & L' & Hr' & _ & _ & _ & _ & _ & _ & _ & _ & ->).
    rewrite Hr in Hr'. now injection Hr' as <-.
  - exact (main_closed_form df L st Hload HL Hst).
Qed.

(** X11: the line "Histogram saved to ..." is printed only after savefig
    and close were called, and it is the last thing [main] does: it is not
    printed when any call before it raised. *)
Theorem main_saved_message_comes_last
  (df0 : DataFrame) (M T C : Series) (h t : list call) (r : failure + unit) :
  let dp := data_path dirname abspath path_join script_file in
  let op := output_path dirname abspath path_join script_file in
  read_csv dp = ok df0 ->
  getitem df0 "MonthlyCharges" = ok M ->
  getitem df0 "tenure" = ok T ->
  getitem df0 "TotalCharges" = ok C ->
  main fails dirname abspath path_join script_file format_2f
       str_to_num object_binop read_csv accumulate accumulate_int h = (t, r) ->
  In (Print ("Histogram saved to " ++ op)) t ->
  In (PltSavefig op) t /\ In PltClose t /\
  (r = inr tt \/ r = inl (LibraryError (Print ("Histogram saved to " ++ op)))).
Proof.
  intros dp op Hr HM HT HC Hrun Hin.
  destruct (load_data str_to_num object_binop read_csv dp)
    as [e|df] eqn:Hload.
  { unfold main in Hrun. cbv zeta in Hrun. fold dp in Hrun.
    unfold data_path in dp. subst dp. rewrite Hload in Hrun.
    injection Hrun as <- <-. destruct Hin. }
  destruct (loaded_statistics dp df Hload) as (L & st & HL & Hst & _).
  pose proof (main_closed_form df L st Hload HL Hst) as Hmain.
  fold op in Hmain. rewrite Hmain in Hrun. clear Hmain Hr Hload.
  unfold report_calls, summary_lines, plot_calls in Hrun. cbn [app] in Hrun.
  clearbody op. clear dp.
  revert Hrun Hin.
  generalize (dirname op) as dir.
  generalize (dropna L) as vals.
  generalize (str_of_nat (total_records st)) as n1.
  generalize (format_2f (total_leakage st)) as n2.
  generalize (format_2f (F64 (average_leakage st))) as n3.
  generalize (str_of_nat (positive_leakage_count st)) as n4.
  intros n4 n3 n2 n1 vals dir Hrun Hin.
  run_calls Hrun; simpl in Hin |- *;
    intuition (try discriminate; auto).
Qed.

(** X12: the summary does not depend on the histogram: as soon as the
    reporter has been entered (a figure was opened), the five summary
    lines have all been printed, whatever happens to the plot
    afterwards. *)
Theorem summary_is_printed_before_plotting
  (df0 : DataFrame) (M T C : Series) (h t : list call) (r : failure + unit) :
  let dp := data_path dirname abspath path_join script_file in
  read_csv dp = ok df0 ->
  getitem df0 "MonthlyCharges" = ok M ->
  getitem df0 "tenure" = ok T ->
  getitem df0 "TotalCharges" = ok C ->
  main fails dirname abspath path_join script_file format_2f
       str_to_num object_binop read_csv accumulate accumulate_int h = (t, r) ->
  In PltFigure t ->
  exists st rest,
    (df <- load_data str_to_num object_binop read_csv dp ;;
     compute_statistics accumulate accumulate_int df) = ok st /\
    t = summary_lines format_2f st ++ rest.
Proof.
  intros dp Hr HM HT HC Hrun Hin.
  destruct (load_data str_to_num object_binop read_csv dp)
    as [e|df] eqn:Hload.
  { unfold main in Hrun. cbv zeta in Hrun. fold dp in Hrun.
    unfold data_path in dp. subst dp. rewrite Hload in Hrun.
    injection Hrun as <- <-. destruct Hin. }
  destruct (loaded_statistics dp df Hload) as (L & st & HL & Hst & _).
  pose proof (main_closed_form df L st Hload HL Hst) as Hmain.
  exists st. rewrite Hmain in Hrun. clear Hmain Hr Hload.
  simpl bind.
  unfold report_calls, summary_lines, plot_calls in Hrun. cbn [app] in Hrun.
  unfold summary_lines. cbn [app].
  run_calls Hrun;
    try (exfalso; simpl in Hin; intuition discriminate);
    (eexists; split; [exact Hst|reflexivity]).
Qed.

End MainFacts.

Lemma main_stops_when_load_fails_witness :
  main never_fails app_dir same_path slash_join "app/detector.py" two_digits
       plain_integer no_object_arith (one_file "elsewhere.csv" three_rows)
       add_in_order add_ints_in_order []
  = ([], inl (Raised FileError)).
Proof.
  apply (main_stops_when_load_fails never_fails app_dir same_path slash_join
           "app/detector.py" two_digits plain_integer no_object_arith
           (one_file "elsewhere.csv" three_rows)
           add_in_order add_ints_in_order FileError []).
  reflexivity.
Defined.

Lemma main_on_loaded_table_witness :
  exists st,
    compute_statistics add_in_order add_ints_in_order three_loaded = ok st /\
    total_records st = 3.
Proof.
  destruct (main_on_loaded_table never_fails app_dir same_path slash_join
              "app/detector.py" two_digits plain_integer no_object_arith
              app_disk add_in_order add_ints_in_order three_rows three_loaded
              eq_refl eq_refl)
    as (L & st & _ & Hst & Hn & _).
  exists st. split; [exact Hst|exact Hn].
Defined.

Lemma main_saved_message_comes_last_witness :
  In PltClose
     (fst (main never_fails app_dir same_path slash_join "app/detector.py"
             two_digits plain_integer no_object_arith app_disk
             add_in_order add_ints_in_order [])).
Proof.
  apply (main_saved_message_comes_last never_fails app_dir same_path slash_join
           "app/detector.py" two_digits plain_integer no_object_arith app_disk
           add_in_order add_ints_in_order three_rows
           (FloatCol [10%float; 10%float; 20%float])
           (IntCol [3%Z; 1%Z; 5%Z])
           (ObjectCol [Some "0"; Some "20"; Some " "]) []
           (fst (main never_fails app_dir same_path slash_join
                   "app/detector.py" two_digits plain_integer no_object_arith
                   app_disk add_in_order add_ints_in_order []))
           (snd (main never_fails app_dir same_path slash_join
                   "app/detector.py" two_digits plain_integer no_object_arith
                   app_disk add_in_order add_ints_in_order []))
           eq_refl eq_refl eq_refl eq_refl eq_refl).
  do 14 right. left. reflexivity.
Defined.

Lemma summary_is_printed_before_plotting_witness :
  exists st rest,
    (df <- load_data plain_integer no_object_arith app_disk
             "app/data/synthetic_revenue.csv" ;;
     compute_statistics add_in_order add_ints_in_order df) = ok st /\
    fst (main full_disk app_dir same_path slash_join "app/detector.py"
           two_digits plain_integer no_object_arith app_disk
           add_in_order add_ints_in_order [])
    = summary_lines two_digits st ++ rest.
Proof.
  apply (summary_is_printed_before_plotting full_disk app_dir same_path
           slash_join "app/detector.py" two_digits plain_integer
           no_object_arith app_disk add_in_order add_ints_in_order
           three_rows
           (FloatCol [10%float; 10%float; 20%float])
           (IntCol [3%Z; 1%Z; 5%Z])
           (ObjectCol [Some "0"; Some "20"; Some " "]) []
           (fst (main full_disk app_dir same_path slash_join "app/detector.py"
                   two_digits plain_integer no_object_arith app_disk
                   add_in_order add_ints_in_order []))
           (snd (main full_disk app_dir same_path slash_join "app/detector.py"
                   two_digits plain_integer no_object_arith app_disk
                   add_in_order add_ints_in_order []))
           eq_refl eq_refl eq_refl eq_refl eq_refl).
  do 5 right. left. reflexivity.
Defined.

(** ** The scenarios, run *)

Example scenario_A_statistics :
  (df <- load_data plain_integer no_object_arith
           (one_file "a.csv" scenario_A) "a.csv" ;;
   compute_statistics add_in_order add_ints_in_order df) =
  ok {| total_records := 1;
        total_leakage := I64 50;
        average_leakage := 50%float;
        positive_leakage_count := 1 |}.
Proof. reflexivity. Qed.

Example three_rows_statistics :
  compute_statistics add_in_order add_ints_in_order three_loaded =
  ok {| total_records := 3;
        total_leakage := F64 20%float;
        average_leakage := 10%float;
        positive_leakage_count := 1 |}.
Proof. reflexivity. Qed.

Example main_on_the_sample :
  main never_fails app_dir same_path slash_join "app/detector.py" two_digits
       plain_integer no_object_arith app_disk add_in_order add_ints_in_order []
  = ([Print "Revenue Leakage Summary:";
      Print "Total customers: 3";
      Print "Total leakage: #.##";
      Print "Average leakage per customer: #.##";
      Print "Customers with positive leakage: 1";
      PltFigure;
      PltHist (FloatCol [30%float; (-10)%float]) 15;
      PltTitle "Revenue Leakage Distribution";
      PltXlabel "Revenue Leakage (USD)";
      PltYlabel "Number of Customers";
      PltTightLayout;
      OsMakedirs "app";
      PltSavefig "app/output/revenue_leakage_hist.png";
      PltClose;
      Print "Histogram saved to app/output/revenue_leakage_hist.png"],
     inr tt).
Proof. reflexivity. Qed.
